(** * stactools.geoparquet_items.commands: the [create] and [convert] commands

    A shallow embedding of [src/stactools/geoparquet_items/commands.py].
    The two click commands are translated statement by statement into a
    state-and-exception monad over a small model of the file system; the
    libraries the module calls (requests, json, dask, stac_geoparquet,
    pyarrow, geopandas, pyogrio, os.path) are the fields of one interface,
    so every theorem holds for whatever those libraries compute. *)

From Stdlib Require Import String Ascii List ZArith Lia Bool Arith.
From Stdlib Require Import Decimal DecimalString DecimalNat.
Import ListNotations.

Open Scope string_scope.

Set Warnings "-register-all".

(** ** Python strings *)

Module Py.

(** [s.startswith(prefix)] *)
Definition startswith (s pre : string) : bool := String.prefix pre s.

(** [s.endswith(suffix)] *)
Definition endswith (s suf : string) : bool :=
  let n := String.length s in
  let m := String.length suf in
  if (m <=? n)%nat then String.eqb (substring (n - m) m s) suf else false.

(** [s.split(sep)] for a one-character separator: never the empty list. *)
Fixpoint split (sep : ascii) (s : string) : list string :=
  match s with
  | EmptyString => [EmptyString]
  | String c rest =>
      if Ascii.eqb c sep then EmptyString :: split sep rest
      else match split sep rest with
           | [] => [String c EmptyString]
           | h :: t => String c h :: t
           end
  end.

(** The characters [str.isspace] accepts in the ASCII range:
    tab, line feed, vertical tab, form feed, carriage return,
    the four separators 28..31 and the space. *)
Definition isspace (c : ascii) : bool :=
  let n := nat_of_ascii c in
  ((9 <=? n)%nat && (n <=? 13)%nat) || ((28 <=? n)%nat && (n <=? 32)%nat).

Fixpoint lstrip (s : string) : string :=
  match s with
  | EmptyString => EmptyString
  | String c rest => if isspace c then lstrip rest else s
  end.

Fixpoint rstrip (s : string) : string :=
  match s with
  | EmptyString => EmptyString
  | String c rest =>
      match rstrip rest with
      | EmptyString => if isspace c then EmptyString else String c EmptyString
      | r => String c r
      end
  end.

(** [s.strip()] *)
Definition strip (s : string) : string := rstrip (lstrip s).

(** [sep.join(l)] *)
Fixpoint join (sep : string) (l : list string) : string :=
  match l with
  | [] => EmptyString
  | [x] => x
  | x :: rest => x ++ sep ++ join sep rest
  end.

(** [str(i)] for a non-negative integer, as an f-string or [format] prints it. *)
Definition str_of_nat (n : nat) : string :=
  NilEmpty.string_of_uint (Nat.to_uint n).

(** [l.remove(x)]: drops the first occurrence; [None] stands for the
    [ValueError] Python raises when [x] is not in the list. *)
Fixpoint list_remove (x : string) (l : list string) : option (list string) :=
  match l with
  | [] => None
  | y :: rest =>
      if String.eqb y x then Some rest
      else match list_remove x rest with
           | Some rest' => Some (y :: rest')
           | None => None
           end
  end.

End Py.

(** ** JSON values, as [json.load] returns them *)

Inductive json : Type :=
| JNull
| JBool (b : bool)
| JNum (literal : string)
| JStr (s : string)
| JArr (items : list json)
| JObj (members : list (string * json)).

(** Python dictionaries keep insertion order: an association list with
    first-match lookup, in-place update and append of a new key. *)
Module Dict.

Fixpoint get {V : Type} (k : string) (d : list (string * V)) : option V :=
  match d with
  | [] => None
  | (k', v) :: rest => if String.eqb k' k then Some v else get k rest
  end.

Definition mem {V : Type} (k : string) (d : list (string * V)) : bool :=
  match get k d with Some _ => true | None => false end.

Fixpoint set {V : Type} (k : string) (v : V) (d : list (string * V))
  : list (string * V) :=
  match d with
  | [] => [(k, v)]
  | (k', v') :: rest =>
      if String.eqb k' k then (k', v) :: rest else (k', v') :: set k v rest
  end.

Fixpoint del {V : Type} (k : string) (d : list (string * V))
  : list (string * V) :=
  match d with
  | [] => []
  | (k', v') :: rest =>
      if String.eqb k' k then del k rest else (k', v') :: del k rest
  end.

Definition keys {V : Type} (d : list (string * V)) : list string :=
  map fst d.

End Dict.

(** ** Exceptions *)

Inductive exn : Type :=
| Exception (msg : string)
| UnboundLocalError (name : string)
| KeyError (key : string)
| TypeError
| AttributeError
| ValueError
| JSONDecodeError
| FileNotFoundError (path : string)
| FileExistsError (path : string)
| IsADirectoryError (path : string)
| ConnectionError
| LibraryError (library : string).

Inductive outcome (A : Type) : Type :=
| Returned (a : A)
| Raised (e : exn).

Arguments Returned {A} a.
Arguments Raised {A} e.

(** ** The file system *)

Inductive node : Type :=
| File (data : string)
| Dir (entries : list (string * node)).

Module FS.

(** Path resolution: the components of a path string, with empty and
    ["."] components dropped and [".."] stepping back; every path is
    resolved from the root of the modelled tree. *)
Definition step (acc : list string) (c : string) : list string :=
  if String.eqb c "" then acc
  else if String.eqb c "." then acc
  else if String.eqb c ".." then removelast acc
  else (acc ++ [c])%list.

Definition components (s : string) : list string :=
  fold_left step (Py.split "/" s) [].

Fixpoint lookup (p : list string) (n : node) : option node :=
  match p with
  | [] => Some n
  | c :: p' =>
      match n with
      | File _ => None
      | Dir es =>
          match Dict.get c es with
          | Some m => lookup p' m
          | None => None
          end
      end
  end.

(** [put p (Some m)] binds the last component of [p] to [m] inside its
    parent directory, [put p None] unbinds it; a missing parent leaves
    the tree as it is (callers test the parent first). *)
Fixpoint put (p : list string) (v : option node) (n : node) : node :=
  match p with
  | [] => n
  | c :: p' =>
      match n with
      | File _ => n
      | Dir es =>
          match p' with
          | [] =>
              match v with
              | Some m => Dir (Dict.set c m es)
              | None => Dir (Dict.del c es)
              end
          | _ :: _ =>
              match Dict.get c es with
              | Some m => Dir (Dict.set c (put p' v m) es)
              | None => n
              end
          end
      end
  end.

Definition is_dir (p : list string) (n : node) : bool :=
  match lookup p n with Some (Dir _) => true | _ => false end.

Definition is_file (p : list string) (n : node) : bool :=
  match lookup p n with Some (File _) => true | _ => false end.

Definition exists_ (p : list string) (n : node) : bool :=
  match lookup p n with Some _ => true | None => false end.

(** [shutil.rmtree(p, ignore_errors=True)]: the tree under [p] goes; the
    working directory itself can only be emptied. *)
Definition rmtree (p : list string) (n : node) : node :=
  match p with
  | [] => Dir []
  | _ => put p None n
  end.

(** [p.unlink(missing_ok=True)], reached only when [p] is not a directory. *)
Definition unlink (p : list string) (n : node) : node :=
  if is_file p n then put p None n else n.

(** Two paths that part ways: after a common stem the next component
    of the one differs from the next component of the other. *)
Definition diverge (p q : list string) : Prop :=
  exists stem a b p' q',
    p = (stem ++ a :: p')%list /\ q = (stem ++ b :: q')%list /\ a <> b.

Definition dirnames (es : list (string * node)) : list string :=
  map fst (filter (fun e => match snd e with Dir _ => true | File _ => false end) es).

Definition filenames (es : list (string * node)) : list string :=
  map fst (filter (fun e => match snd e with Dir _ => false | File _ => true end) es).

End FS.

(** ** os.path *)

(** [os.path.join(a, b)] of posixpath. *)
Definition os_path_join (a b : string) : string :=
  if Py.startswith b "/" then b
  else if String.eqb a "" || Py.endswith a "/" then a ++ b
  else a ++ "/" ++ b.

(** [os.walk(top)], top-down: the directory itself, then each
    subdirectory in listing order; a [top] that is not a directory
    yields nothing. *)
Fixpoint os_walk (top : string) (n : node)
  : list (string * list string * list string) :=
  match n with
  | File _ => []
  | Dir es =>
      (top, FS.dirnames es, FS.filenames es) ::
      (fix subdirs (l : list (string * node)) :=
         match l with
         | [] => []
         | (name, m) :: l' =>
             match m with
             | Dir _ => (os_walk (os_path_join top name) m ++ subdirs l')%list
             | File _ => subdirs l'
             end
         end) es
  end.

(** The files a walk from [top] passes: [walked top tree root name]
    when a file called [name] lies in a directory of [tree], at any
    depth, that the walk reports under the string [root]. *)
Inductive walked : string -> node -> string -> string -> Prop :=
| walked_here (top : string) (es : list (string * node)) (name data : string) :
    In (name, File data) es ->
    walked top (Dir es) top name
| walked_below (top : string) (es sub : list (string * node)) (d root name : string) :
    In (d, Dir sub) es ->
    walked (os_path_join top d) (Dir sub) root name ->
    walked top (Dir es) root name.

(** ** The world a command runs in *)

(** What a run does that an observer can see: lines printed, files
    opened for reading, batches of records handed to the table builder,
    files written. *)
Inductive event : Type :=
| Print (line : string)
| HttpGet (url : string)
| ReadFile (path : string)
| BuildTable (records : list json)
| WriteFile (path : string).

Record world : Type := World { fs : node; trace : list event }.

(** The paths written and the batches built, in the order of the trace. *)
Fixpoint writes (evs : list event) : list string :=
  match evs with
  | [] => []
  | WriteFile path :: rest => path :: writes rest
  | _ :: rest => writes rest
  end.

Fixpoint tables (evs : list event) : list (list json) :=
  match evs with
  | [] => []
  | BuildTable records :: rest => records :: tables rest
  | _ :: rest => tables rest
  end.

(** State and exceptions: a raised exception keeps the world it was
    raised in. *)
Definition M (A : Type) : Type := world -> outcome A * world.

Definition ret {A : Type} (a : A) : M A := fun w => (Returned a, w).

Definition raise {A : Type} (e : exn) : M A := fun w => (Raised e, w).

Definition bind {A B : Type} (c : M A) (k : A -> M B) : M B :=
  fun w =>
    match c w with
    | (Returned a, w') => k a w'
    | (Raised e, w') => (Raised e, w')
    end.

Declare Scope py_scope.
Delimit Scope py_scope with py.

Notation "x <- c ;; k" := (bind c (fun x => k))
  (at level 100, c at next level, right associativity) : py_scope.
Notation "c ;; k" := (bind c (fun _ => k))
  (at level 100, right associativity) : py_scope.

Open Scope py_scope.

Definition emit (e : event) : M unit :=
  fun w => (Returned tt, World (fs w) (trace w ++ [e])%list).

Definition print (line : string) : M unit := emit (Print line).

Definition get_fs : M node := fun w => (Returned (fs w), w).

Definition set_fs (n : node) : M unit :=
  fun w => (Returned tt, World n (trace w)).

Definition lift {A : Type} (o : option A) (e : exn) : M A :=
  match o with Some a => ret a | None => raise e end.

(** Two judgements on a piece of code: whatever the outcome, it only
    adds events satisfying [ok] to the trace; when it returns, the value
    satisfies [Q]. *)
Definition emits {A : Type} (ok : event -> Prop) (c : M A) : Prop :=
  forall w r w',
    c w = (r, w') -> exists evs, trace w' = (trace w ++ evs)%list /\ Forall ok evs.

Definition returns {A : Type} (Q : A -> Prop) (c : M A) : Prop :=
  forall w a w', c w = (Returned a, w') -> Q a.

(** A third one: the code never ends by raising an [Exception]. *)
Definition no_exception {A : Type} (c : M A) : Prop :=
  forall w w' msg, c w <> (Raised (Exception msg), w').

(** *** Files *)

(** A path string as the operating system takes it: the empty string
    names nothing. *)
Definition os_resolve (path : string) : option (list string) :=
  if String.eqb path "" then None else Some (FS.components path).

(** [os.path.exists(path)] *)
Definition os_path_exists (path : string) (n : node) : bool :=
  match os_resolve path with
  | Some p => FS.exists_ p n
  | None => false
  end.

(** Opening [path] for reading and reading it whole. *)
Definition read_text (path : string) : M string :=
  n <- get_fs ;;
  match os_resolve path with
  | None => raise (FileNotFoundError path)
  | Some p =>
      match FS.lookup p n with
      | Some (File data) => emit (ReadFile path) ;; ret data
      | Some (Dir _) => raise (IsADirectoryError path)
      | None => raise (FileNotFoundError path)
      end
  end.

(** Creating or replacing the file [path] with [data]: the parent must
    be a directory and [path] itself must not be one. *)
Definition write_file (path : string) (data : string) : M unit :=
  n <- get_fs ;;
  match os_resolve path with
  | None => raise (FileNotFoundError path)
  | Some p =>
      if FS.is_dir p n then raise (IsADirectoryError path)
      else if FS.is_dir (removelast p) n
           then set_fs (FS.put p (Some (File data)) n) ;; emit (WriteFile path)
           else raise (FileNotFoundError path)
  end.

(** [p.mkdir()] *)
Definition mkdir (path : string) : M unit :=
  n <- get_fs ;;
  let p := FS.components path in
  if FS.exists_ p n then raise (FileExistsError path)
  else if FS.is_dir (removelast p) n
       then set_fs (FS.put p (Some (Dir [])) n)
       else raise (FileNotFoundError path).

(** Writing [new] at offset 0 over [old], as [f.seek(0)] followed by a
    write does. *)
Definition overwrite (old new : string) : string :=
  new ++ substring (String.length new) (String.length old - String.length new) old.

(** [f.truncate()] at position [pos]. *)
Definition truncate (pos : nat) (data : string) : string :=
  substring 0 pos data.

(** *** Python values *)

(** [list(v)]: what iterating a JSON value yields. *)
Definition py_list (v : json) : outcome (list json) :=
  match v with
  | JArr l => Returned l
  | JObj d => Returned (map JStr (Dict.keys d))
  | JStr s => Returned (map (fun c => JStr (String c EmptyString)) (list_ascii_of_string s))
  | _ => Raised TypeError
  end.

(** [len(v)] *)
Definition py_len (v : json) : outcome nat :=
  match v with
  | JArr l => Returned (List.length l)
  | JObj d => Returned (List.length d)
  | JStr s => Returned (String.length s)
  | _ => Raised TypeError
  end.

(** [v.append(x)] *)
Definition py_append (v : json) (x : json) : outcome json :=
  match v with
  | JArr l => Returned (JArr (l ++ [x])%list)
  | _ => Raised AttributeError
  end.

(** [v.get(key)] *)
Definition py_get (v : json) (key : string) : outcome json :=
  match v with
  | JObj d => Returned (match Dict.get key d with Some x => x | None => JNull end)
  | _ => Raised AttributeError
  end.

(** [v[key]] for a string key. *)
Definition py_getitem (v : json) (key : string) : outcome json :=
  match v with
  | JObj d =>
      match Dict.get key d with
      | Some x => Returned x
      | None => Raised (KeyError key)
      end
  | _ => Raised TypeError
  end.

(** [a == b] on JSON values where [b] is a string constant. *)
Definition py_eq_str (a : json) (b : string) : bool :=
  match a with
  | JStr s => String.eqb s b
  | _ => false
  end.

Definition run {A : Type} (o : outcome A) : M A :=
  match o with Returned a => ret a | Raised e => raise e end.

(** [enumerate(l)] *)
Fixpoint enumerate_from {A : Type} (i : nat) (l : list A) : list (nat * A) :=
  match l with
  | [] => []
  | x :: rest => (i, x) :: enumerate_from (S i) rest
  end.

Definition enumerate {A : Type} (l : list A) : list (nat * A) :=
  enumerate_from 0 l.

(** ** The libraries the commands call *)

Class Libraries : Type := {
  (** the data frame type of geopandas *)
  DataFrame : Type;
  (** [requests.get(url)]: the body of the response, if one arrives *)
  requests_get : string -> option string;
  (** [json.load] / [json.loads] / [response.json()] *)
  json_loads : string -> option json;
  (** [json.dump(v, f, indent=2)]: the text written *)
  json_dumps : json -> string;
  (** [dask.bag.from_sequence(seq, npartitions=n)]: the partitions *)
  from_sequence : forall A : Type, list A -> Z -> list (list A);
  (** [stac_geoparquet.to_geodataframe(items)] *)
  to_geodataframe : list json -> option DataFrame;
  (** the bytes [df.to_parquet(path)] writes *)
  to_parquet : DataFrame -> string;
  (** [pyarrow.parquet.read_schema(source).names] *)
  read_schema_names : node -> option (list string);
  (** [geopandas.read_parquet(source, columns=columns)] *)
  read_parquet : node -> option (list string) -> option DataFrame;
  (** the bytes [pyogrio.write_dataframe(df, destination, driver=format)] writes *)
  write_dataframe : DataFrame -> string -> option string;
  os_path_abspath : string -> string;
  os_path_dirname : string -> string;
  os_path_relpath : string -> string -> string
}.

(** ** The commands *)

Definition IGNORE_FIELDS : list string := ["stac_version"; "type"; "assets"].

Section Commands.

Context {L : Libraries}.

(** *** create *)

(** A dask bag, before it is computed: the partitions [from_sequence]
    made and the element-wise pipeline attached to them. *)
Inductive bag : Type :=
| BagOfItems (partitions : list (list json))
| BagOfFiles (partitions : list (list string)).

(** The locals of [create_command] the branches communicate through;
    [paths] is bound only by the file-system branch. *)
Record locals : Type := Locals {
  items : json;
  bag_ : option bag;
  paths : option (list string)
}.

(** Lines 57-61: the destination is cleared. *)
Definition cleared (destination : string) (n : node) : node :=
  let p := FS.components destination in
  if FS.is_dir p n then FS.rmtree p n else FS.unlink p n.

Definition clear_destination (destination : string) : M unit :=
  n <- get_fs ;;
  set_fs (cleared destination n).

(** Lines 57-65. *)
Definition prepare_destination (destination : string) (partition : Z) : M unit :=
  clear_destination destination ;;
  if (partition >? 1)%Z
  then mkdir destination ;; print "Created destination folder"
  else ret tt.

(** Lines 84-90, the test applied to each file name of the walk. *)
Definition is_item_file (name : string) : bool :=
  if negb (Py.endswith name ".json") then false
  else if String.eqb name "catalog.json" || String.eqb name "collection.json" then false
  else true.

(** Lines 81-90: the paths collected from the walk of [source]. *)
Definition collect_paths (source : string) (n : node) : list string :=
  match os_resolve source with
  | None => []
  | Some p =>
      match FS.lookup p n with
      | Some tree =>
          flat_map (fun '(root, _, files) =>
                      map (os_path_join root) (filter is_item_file files))
                   (os_walk source tree)
      | None => []
      end
  end.

(** [item["type"] == "Feature"] *)
Definition is_feature (item : json) : outcome bool :=
  match py_getitem item "type" with
  | Returned t => Returned (py_eq_str t "Feature")
  | Raised e => Raised e
  end.

(** A batch of records all of which pass the test of lines 99 and 117. *)
Definition only_features (records : list json) : Prop :=
  Forall (fun item => is_feature item = Returned true) records.

(** A path to a file that parses to a record of another type than
    [Feature]. *)
Definition holds_no_feature (n : node) (path : string) : Prop :=
  exists p text item,
    os_resolve path = Some p /\ FS.lookup p n = Some (File text) /\
    json_loads text = Some item /\ is_feature item = Returned false.

(** A path to a file that parses to the record [item]. *)
Definition holds_record (n : node) (path : string) (item : json) : Prop :=
  exists p text,
    os_resolve path = Some p /\ FS.lookup p n = Some (File text) /\
    json_loads text = Some item.

(** A record on which the test of lines 99 and 117 gives an answer. *)
Definition typed (item : json) : Prop :=
  exists keep, is_feature item = Returned keep.

(** The records of a list that pass the test, in their order. *)
Definition feature_records (docs : list json) : list json :=
  filter (fun item => match is_feature item with
                      | Returned true => true
                      | _ => false
                      end) docs.

(** An event that is not the building of a table from a batch holding
    a record that fails the test. *)
Definition builds_features (e : event) : Prop :=
  match e with
  | BuildTable records => only_features records
  | _ => True
  end.

(** An event that neither builds a table nor writes a file. *)
Definition read_only (e : event) : Prop :=
  match e with
  | BuildTable _ | WriteFile _ => False
  | _ => True
  end.

(** An event that is not the writing of a file other than the
    destination, a partition file under it, or the collection document. *)
Definition writes_within (destination collection : string) (e : event) : Prop :=
  match e with
  | WriteFile path =>
      path = destination \/ path = collection \/
      exists i, path = destination ++ "/part." ++ Py.str_of_nat i ++ ".parquet"
  | _ => True
  end.

(** Lines 69-77: the remote branch. *)
Definition from_remote (source : string) (partition : Z) : M locals :=
  print "Requesting remote source" ;;
  emit (HttpGet source) ;;
  body <- lift (requests_get source) ConnectionError ;;
  doc <- lift (json_loads body) JSONDecodeError ;;
  features <- run (py_get doc "features") ;;
  let items := match features with JNull => JArr [] | _ => features end in
  if (partition >? 1)%Z then
    seq <- run (py_list items) ;;
    ret (Locals items (Some (BagOfItems (from_sequence json seq partition))) None)
  else ret (Locals items None None).

(** Lines 79-100: the file-system branch. *)
Definition from_file_system (source : string) (partition : Z) : M locals :=
  print "Reading from file system" ;;
  n <- get_fs ;;
  let paths := collect_paths source n in
  print ("Found " ++ Py.str_of_nat (List.length paths) ++ " potential STAC Items") ;;
  if (partition >? 1)%Z then
    ret (Locals (JArr []) (Some (BagOfFiles (from_sequence string paths partition))) (Some paths))
  else ret (Locals (JArr []) None (Some paths)).

(** The test of line 69. *)
Definition is_remote (source : string) : bool :=
  Py.startswith source "https://" || Py.startswith source "http://".

(** Lines 67-100. *)
Definition extract (source : string) (partition : Z) : M locals :=
  if is_remote source then
    from_remote source partition
  else
    n <- get_fs ;;
    if os_path_exists source n then from_file_system source partition
    else ret (Locals (JArr []) None None).

(** The locals as every branch but the remote one leaves them: no
    items yet, and no bag or a bag of files. *)
Definition off_remote (l : locals) : Prop :=
  items l = JArr [] /\
  match bag_ l with
  | Some (BagOfItems _) => False
  | _ => True
  end.

(** The records of one partition, when the bag is computed: the
    partition itself for a bag of items; for a bag of files each path is
    read, parsed and filtered in turn. *)
Fixpoint read_features (files : list string) : M (list json) :=
  match files with
  | [] => ret []
  | file :: rest =>
      text <- read_text file ;;
      item <- lift (json_loads text) JSONDecodeError ;;
      keep <- run (is_feature item) ;;
      more <- read_features rest ;;
      ret (if keep then item :: more else more)
  end.

Definition bag_partitions (b : bag) : list (M (list json)) :=
  match b with
  | BagOfItems parts => map ret parts
  | BagOfFiles parts => map read_features parts
  end.

Definition bag_size (b : bag) : nat :=
  match b with
  | BagOfItems parts => List.length parts
  | BagOfFiles parts => List.length parts
  end.

(** The name of the file partition [i] is written to. *)
Definition part_path (destination : string) (i : nat) : string :=
  destination ++ "/part." ++ Py.str_of_nat i ++ ".parquet".

(** One task of line 108: build the table of a partition and write it. *)
Definition to_parquet_task (records : M (list json)) (path : string) : M unit :=
  rs <- records ;;
  emit (BuildTable rs) ;;
  df <- lift (to_geodataframe rs) (LibraryError "stac_geoparquet") ;;
  write_file path (to_parquet df).

(** Lines 107-110. *)
Definition tasks (destination : string) (dfs : list (M (list json))) : list (M unit) :=
  map (fun '(i, obj) => to_parquet_task obj (part_path destination i)) (enumerate dfs).

(** [dask.compute] applied to the tasks, on the schedule that runs the tasks one
    after the other in submission order. *)
Fixpoint dask_compute (ts : list (M unit)) : M unit :=
  match ts with
  | [] => ret tt
  | t :: rest => t ;; dask_compute rest
  end.

(** Lines 114-118. *)
Fixpoint load_items (paths : list string) (items : json) : M json :=
  match paths with
  | [] => ret items
  | p :: rest =>
      text <- read_text p ;;
      item <- lift (json_loads text) JSONDecodeError ;;
      keep <- run (is_feature item) ;;
      items' <- (if keep then run (py_append items item) else ret items) ;;
      load_items rest items'
  end.

(** Lines 102-131: the artifact is written. *)
Definition write_artifact (destination : string) (l : locals) : M unit :=
  match bag_ l with
  | Some b =>
      print "Initialized for parallel processing" ;;
      dask_compute (tasks destination (bag_partitions b)) ;;
      print "Wrote geoparquet file(s)"
  | None =>
      paths <- lift (paths l) (UnboundLocalError "paths") ;;
      items <- load_items paths (items l) ;;
      num <- run (py_len items) ;;
      if (0 <? num)%nat then
        print ("Loaded " ++ Py.str_of_nat num ++ " actual STAC Items") ;;
        records <- run (py_list items) ;;
        emit (BuildTable records) ;;
        df <- lift (to_geodataframe records) (LibraryError "stac_geoparquet") ;;
        print "Created dataframe" ;;
        write_file destination (to_parquet df) ;;
        print "Wrote geoparquet file"
      else raise (Exception "Aborting, no items available")
  end.

(** The asset object of lines 140-145. *)
Definition geoparquet_asset (destination basepath : string) : json :=
  JObj [ ("href", JStr (os_path_relpath destination basepath));
         ("type", JStr "application/x-parquet");
         ("roles", JArr [JStr "stac-items"]);
         ("title", JStr "GeoParquet STAC Items") ].

(** Lines 136-145 on the parsed document: an [assets] mapping is made
    if there is none, and its key [geoparquet-items] is assigned.  A
    document that is not an object, or whose [assets] is not one, ends
    in a [TypeError] at one of the subscripts. *)
Definition amend_collection (destination collection : string) (collection_json : json)
  : outcome json :=
  match collection_json with
  | JObj members =>
      let members :=
        if negb (Dict.mem "assets" members)
        then Dict.set "assets" (JObj []) members
        else members in
      let basepath := os_path_abspath (os_path_dirname collection) in
      match Dict.get "assets" members with
      | Some (JObj assets) =>
          let assets :=
            Dict.set "geoparquet-items" (geoparquet_asset destination basepath) assets in
          Returned (JObj (Dict.set "assets" (JObj assets) members))
      | _ => Raised TypeError
      end
  | _ => Raised TypeError
  end.

(** Lines 133-150: the collection document is read, amended and
    written back over itself. *)
Definition link_collection (destination collection : string) : M unit :=
  if (0 <? String.length collection)%nat then
    old <- read_text collection ;;
    collection_json <- lift (json_loads old) JSONDecodeError ;;
    collection_json <- run (amend_collection destination collection collection_json) ;;
    let text := json_dumps collection_json in
    write_file collection (truncate (String.length text) (overwrite old text)) ;;
    print "Updated STAC Collection"
  else ret tt.

Definition create_command (source destination collection : string) (partition : Z)
  : M unit :=
  prepare_destination destination partition ;;
  l <- extract source partition ;;
  write_artifact destination l ;;
  link_collection destination collection.

(** *** convert *)

(** Lines 192-197. *)
Definition resolve_exclude (exclude : option string) : list string :=
  match exclude with
  | None => IGNORE_FIELDS
  | Some e =>
      if String.eqb e "none" || String.eqb e "NONE" then []
      else Py.split "," e
  end.

(** Lines 203-204: each entry, trimmed, is removed from the column list. *)
Fixpoint remove_columns (columns : list string) (to_exclude : list string)
  : option (list string) :=
  match to_exclude with
  | [] => Some columns
  | col :: rest =>
      match Py.list_remove (Py.strip col) columns with
      | Some columns' => remove_columns columns' rest
      | None => None
      end
  end.

(** Lines 199-204: the [columns] argument of the read. *)
Definition select_columns (source : node) (to_exclude : list string)
  : M (option (list string)) :=
  if (0 <? List.length to_exclude)%nat then
    names <- lift (read_schema_names source) (LibraryError "pyarrow") ;;
    columns <- lift (remove_columns names to_exclude) ValueError ;;
    ret (Some columns)
  else ret None.

(** Lines 206-207: the table is read with the chosen columns and
    written in the requested format. *)
Definition export_columns (src : node) (destination format : string)
                          (columns : option (list string)) : M unit :=
  df <- lift (read_parquet src columns) (LibraryError "geopandas") ;;
  data <- lift (write_dataframe df format) (LibraryError "pyogrio") ;;
  write_file destination data.

Definition convert_command (source destination format : string)
                           (exclude : option string) : M unit :=
  n <- get_fs ;;
  if negb (os_path_exists source n) then raise (Exception "Source file does not exist")
  else
    let to_exclude := resolve_exclude exclude in
    src <- lift (match os_resolve source with
                 | Some p => FS.lookup p n
                 | None => None
                 end) (FileNotFoundError source) ;;
    columns <- select_columns src to_exclude ;;
    export_columns src destination format columns.

End Commands.

(** ** One implementation of the libraries, to run the commands on

    A JSON printer in the layout of [indent=2] with a parser for it, a
    web given as a table, contiguous blocks for the partitions, tables
    kept as their rows, and POSIX path functions from the root. *)

Module Sample.

Definition dq : ascii := "034"%char.
Definition nl : string := String "010"%char EmptyString.

Fixpoint escape (s : string) : string :=
  match s with
  | EmptyString => EmptyString
  | String c rest =>
      if Ascii.eqb c dq || Ascii.eqb c "\"%char
      then String "\"%char (String c (escape rest))
      else String c (escape rest)
  end.

Fixpoint indent (level : nat) : string :=
  match level with
  | O => EmptyString
  | S k => "  " ++ indent k
  end.

Definition quoted (s : string) : string :=
  String dq (escape s) ++ String dq EmptyString.

Fixpoint dumps_at (level : nat) (v : json) : string :=
  match v with
  | JNull => "null"
  | JBool true => "true"
  | JBool false => "false"
  | JNum literal => literal
  | JStr s => quoted s
  | JArr [] => "[]"
  | JArr l =>
      "[" ++ nl ++
      (fix elements (l : list json) : string :=
         match l with
         | [] => EmptyString
         | [x] => indent (S level) ++ dumps_at (S level) x ++ nl
         | x :: rest => indent (S level) ++ dumps_at (S level) x ++ "," ++ nl ++ elements rest
         end) l ++
      indent level ++ "]"
  | JObj [] => "{}"
  | JObj d =>
      "{" ++ nl ++
      (fix members (d : list (string * json)) : string :=
         match d with
         | [] => EmptyString
         | [(k, x)] => indent (S level) ++ quoted k ++ ": " ++ dumps_at (S level) x ++ nl
         | (k, x) :: rest =>
             indent (S level) ++ quoted k ++ ": " ++ dumps_at (S level) x ++ "," ++ nl ++ members rest
         end) d ++
      indent level ++ "}"
  end.

Definition dumps (v : json) : string := dumps_at 0 v.

Fixpoint skip_ws (s : string) : string :=
  match s with
  | String c rest => if Py.isspace c then skip_ws rest else s
  | EmptyString => EmptyString
  end.

(** The characters of a string literal, after its opening quote. *)
Fixpoint parse_chars (s : string) : option (string * string) :=
  match s with
  | EmptyString => None
  | String c rest =>
      if Ascii.eqb c dq then Some (EmptyString, rest)
      else if Ascii.eqb c "\"%char then
        match rest with
        | String c2 rest2 =>
            match parse_chars rest2 with
            | Some (t, r) => Some (String c2 t, r)
            | None => None
            end
        | EmptyString => None
        end
      else match parse_chars rest with
           | Some (t, r) => Some (String c t, r)
           | None => None
           end
  end.

Definition is_number_char (c : ascii) : bool :=
  let n := nat_of_ascii c in
  ((48 <=? n)%nat && (n <=? 57)%nat)
  || Ascii.eqb c "-" || Ascii.eqb c "+" || Ascii.eqb c "." || Ascii.eqb c "e" || Ascii.eqb c "E".

Fixpoint parse_number (s : string) : string * string :=
  match s with
  | String c rest =>
      if is_number_char c
      then let '(t, r) := parse_number rest in (String c t, r)
      else (EmptyString, s)
  | EmptyString => (EmptyString, EmptyString)
  end.

Fixpoint parse_value (fuel : nat) (s : string) : option (json * string) :=
  match fuel with
  | O => None
  | S fuel' =>
      match skip_ws s with
      | EmptyString => None
      | String c rest =>
          if Ascii.eqb c dq then
            match parse_chars rest with
            | Some (t, r) => Some (JStr t, r)
            | None => None
            end
          else if Ascii.eqb c "[" then
            match skip_ws rest with
            | String "]" r => Some (JArr [], r)
            | _ =>
                match parse_elements fuel' rest with
                | Some (l, r) => Some (JArr l, r)
                | None => None
                end
            end
          else if Ascii.eqb c "{" then
            match skip_ws rest with
            | String "}" r => Some (JObj [], r)
            | _ =>
                match parse_members fuel' rest with
                | Some (d, r) => Some (JObj d, r)
                | None => None
                end
            end
          else if String.prefix "null" (String c rest) then Some (JNull, substring 4 (String.length rest) (String c rest))
          else if String.prefix "true" (String c rest) then Some (JBool true, substring 4 (String.length rest) (String c rest))
          else if String.prefix "false" (String c rest) then Some (JBool false, substring 5 (String.length rest) (String c rest))
          else match parse_number (String c rest) with
               | (EmptyString, _) => None
               | (literal, r) => Some (JNum literal, r)
               end
      end
  end
with parse_elements (fuel : nat) (s : string) : option (list json * string) :=
  match fuel with
  | O => None
  | S fuel' =>
      match parse_value fuel' s with
      | Some (v, r) =>
          match skip_ws r with
          | String "," r' =>
              match parse_elements fuel' r' with
              | Some (l, r'') => Some (v :: l, r'')
              | None => None
              end
          | String "]" r' => Some ([v], r')
          | _ => None
          end
      | None => None
      end
  end
with parse_members (fuel : nat) (s : string) : option (list (string * json) * string) :=
  match fuel with
  | O => None
  | S fuel' =>
      match skip_ws s with
      | String c rest =>
          if Ascii.eqb c dq then
            match parse_chars rest with
            | Some (k, r) =>
                match skip_ws r with
                | String ":" r1 =>
                    match parse_value fuel' r1 with
                    | Some (v, r2) =>
                        match skip_ws r2 with
                        | String "," r3 =>
                            match parse_members fuel' r3 with
                            | Some (d, r4) => Some ((k, v) :: d, r4)
                            | None => None
                            end
                        | String "}" r3 => Some ([(k, v)], r3)
                        | _ => None
                        end
                    | None => None
                    end
                | _ => None
                end
            | None => None
            end
          else None
      | EmptyString => None
      end
  end.

Definition loads (s : string) : option json :=
  match parse_value (2 * String.length s + 2) s with
  | Some (v, rest) =>
      match skip_ws rest with
      | EmptyString => Some v
      | _ => None
      end
  | None => None
  end.

(** Contiguous blocks of [size] elements. *)
Fixpoint blocks {A : Type} (fuel size : nat) (l : list A) : list (list A) :=
  match fuel with
  | O => []
  | S fuel' =>
      match l with
      | [] => []
      | _ => firstn size l :: blocks fuel' size (skipn size l)
      end
  end.

Definition partitions_of (A : Type) (l : list A) (npartitions : Z) : list (list A) :=
  let k := Z.to_nat npartitions in
  let size := Nat.max 1 ((List.length l + k - 1) / k) in
  match blocks (List.length l) size l with
  | [] => [[]]
  | parts => parts
  end.

(** A table is the list of its rows. *)
Definition restrict (columns : option (list string)) (row : json) : json :=
  match columns, row with
  | Some cs, JObj d => JObj (filter (fun kv => existsb (String.eqb (fst kv)) cs) d)
  | _, _ => row
  end.

Definition read_rows (source : node) : option (list json) :=
  match source with
  | File data =>
      match loads data with
      | Some (JArr rows) => Some rows
      | _ => None
      end
  | Dir _ => None
  end.

Definition schema_names (source : node) : option (list string) :=
  match read_rows source with
  | Some (JObj d :: _) => Some (Dict.keys d)
  | _ => None
  end.

Definition read_table (source : node) (columns : option (list string))
  : option (list json) :=
  match read_rows source with
  | Some rows => Some (map (restrict columns) rows)
  | None => None
  end.

Definition write_table (df : list json) (format : string) : option string :=
  Some (format ++ nl ++ dumps (JArr df)).

Fixpoint all_slashes (s : string) : bool :=
  match s with
  | EmptyString => true
  | String c rest => Ascii.eqb c "/" && all_slashes rest
  end.

Fixpoint rstrip_slashes (s : string) : string :=
  match s with
  | EmptyString => EmptyString
  | String c rest =>
      match rstrip_slashes rest with
      | EmptyString => if Ascii.eqb c "/" then EmptyString else String c EmptyString
      | r => String c r
      end
  end.

Definition dirname (p : string) : string :=
  match removelast (Py.split "/" p) with
  | [] => EmptyString
  | parts =>
      let head := Py.join "/" parts ++ "/" in
      if all_slashes head then head else rstrip_slashes head
  end.

Definition abspath (p : string) : string :=
  "/" ++ Py.join "/" (FS.components p).

Fixpoint strip_common (a b : list string) : list string * list string :=
  match a, b with
  | x :: a', y :: b' => if String.eqb x y then strip_common a' b' else (a, b)
  | _, _ => (a, b)
  end.

Definition relpath (path start : string) : string :=
  let '(up, down) := strip_common (FS.components start) (FS.components path) in
  match (map (fun _ => "..") up ++ down)%list with
  | [] => "."
  | parts => Py.join "/" parts
  end.

Definition libraries (web : list (string * string)) : Libraries := {|
  DataFrame := list json;
  requests_get := fun url => Dict.get url web;
  json_loads := loads;
  json_dumps := dumps;
  from_sequence := partitions_of;
  to_geodataframe := fun records => Some records;
  to_parquet := fun df => dumps (JArr df);
  read_schema_names := schema_names;
  read_parquet := read_table;
  write_dataframe := write_table;
  os_path_abspath := abspath;
  os_path_dirname := dirname;
  os_path_relpath := relpath
|}.

End Sample.

(** ** Data for the examples *)

Module Examples.

Definition item (id type : string) : json :=
  JObj [("type", JStr type); ("id", JStr id); ("geometry", JNull)].

Definition row (id : string) : json :=
  JObj [("id", JStr id); ("stac_version", JStr "1.0.0"); ("type", JStr "Feature");
        ("assets", JObj []); ("geometry", JNull)].

Definition document (v : json) : node := File (Sample.dumps v).

(** A working directory with a STAC tree, a collection document and
    two columnar files as they are stored by the sample libraries. *)
Definition tree : node :=
  Dir [ ("stac",
         Dir [ ("catalog.json", document (item "root" "Catalog"));
               ("item1.json", document (item "1" "Feature"));
               ("2024",
                Dir [ ("collection.json", document (item "c" "Collection"));
                      ("item2.json", document (item "2" "Feature"));
                      ("readme.txt", File "not an item") ]) ]);
        ("containers",
         Dir [ ("catalog.json", document (item "root" "Catalog"));
               ("extent.json", document (item "e" "Collection")) ]);
        ("collection.json",
         document (JObj [("id", JStr "c"); ("links", JArr [])]));
        ("in.parquet", document (JArr [row "1"; row "2"]));
        ("old.parquet", File "left over from an earlier run") ].

Definition web : list (string * string) :=
  [ ("https://example.com/items",
     Sample.dumps (JObj [("type", JStr "FeatureCollection");
                         ("features", JArr [item "1" "Feature"; item "2" "Collection"])]));
    ("http://example.com/empty", Sample.dumps (JObj [("features", JArr [])])) ].

Definition libs : Libraries := Sample.libraries web.

(** A directory in which the second of three files is an object
    without a [type]. *)
Definition mixed : node :=
  Dir [ ("mixed",
         Dir [ ("a.json", document (item "a" "Feature"));
               ("b.json", document (JObj [("id", JStr "b")]));
               ("c.json", document (item "c" "Feature")) ]) ].

Definition w0 : world := World tree [].

End Examples.

(** * Properties *)

(** ** Strings, dictionaries and lists *)

Lemma split_not_nil (sep : ascii) (s : string) : Py.split sep s <> [].
Proof.
  destruct s as [|c s]; simpl; [discriminate|].
  destruct (Ascii.eqb c sep); [discriminate|].
  destruct (Py.split sep s); discriminate.
Qed.

Lemma list_remove_absent (x : string) (l : list string) :
  ~ In x l -> Py.list_remove x l = None.
Proof.
  induction l as [|y l IH]; simpl; intros Hx; [reflexivity|].
  destruct (String.eqb_spec y x) as [->|Hne].
  - exfalso; apply Hx; now left.
  - rewrite IH; [reflexivity|]. intros Hin; apply Hx; now right.
Qed.

Lemma list_remove_subset (x : string) (l l' : list string) :
  Py.list_remove x l = Some l' -> forall y, In y l' -> In y l.
Proof.
  revert l'; induction l as [|z l IH]; simpl; intros l' H y Hy; [discriminate|].
  destruct (String.eqb z x).
  - injection H as <-. now right.
  - destruct (Py.list_remove x l) as [r|] eqn:E; [|discriminate].
    injection H as <-. destruct Hy as [->|Hy]; [now left|right; eauto].
Qed.

(** On a list without repetitions [remove] is a filter. *)
Lemma list_remove_nodup (x : string) (l : list string) :
  NoDup l -> In x l ->
  Py.list_remove x l = Some (filter (fun c => negb (String.eqb c x)) l).
Proof.
  induction l as [|y l IH]; simpl; intros Hnd Hin; [contradiction|].
  inversion Hnd as [|? ? Hy Hl]; subst.
  destruct (String.eqb_spec y x) as [->|Hne]; simpl.
  - f_equal. symmetry. apply forallb_filter_id.
    apply forallb_forall. intros z Hz.
    destruct (String.eqb_spec z x) as [->|]; [contradiction|reflexivity].
  - destruct Hin as [->|Hin]; [congruence|].
    now rewrite (IH Hl Hin).
Qed.

Lemma filter_twice {A : Type} (f g : A -> bool) (l : list A) :
  filter f (filter g l) = filter (fun x => g x && f x) l.
Proof.
  induction l as [|x l IH]; simpl; [reflexivity|].
  destruct (g x); simpl; [|exact IH]. destruct (f x); now rewrite IH.
Qed.

Lemma dict_get_set_same {V : Type} (k : string) (v : V) (d : list (string * V)) :
  Dict.get k (Dict.set k v d) = Some v.
Proof.
  induction d as [|[k' v'] d IH]; simpl.
  - now rewrite String.eqb_refl.
  - destruct (String.eqb k' k) eqn:E; simpl; rewrite E; [reflexivity|exact IH].
Qed.

Lemma dict_get_set_other {V : Type} (k k0 : string) (v : V) (d : list (string * V)) :
  k0 <> k -> Dict.get k0 (Dict.set k v d) = Dict.get k0 d.
Proof.
  intros Hne. induction d as [|[k' v'] d IH]; simpl.
  - destruct (String.eqb_spec k k0); [congruence|reflexivity].
  - destruct (String.eqb_spec k' k) as [->|]; simpl.
    + destruct (String.eqb_spec k k0); [congruence|reflexivity].
    + destruct (String.eqb k' k0); [reflexivity|exact IH].
Qed.

Lemma dict_get_del_same {V : Type} (k : string) (d : list (string * V)) :
  Dict.get k (Dict.del k d) = None.
Proof.
  induction d as [|[k' v'] d IH]; simpl; [reflexivity|].
  destruct (String.eqb k' k) eqn:E; simpl; [exact IH|]. now rewrite E.
Qed.

(** Assigning to a key keeps the order of the keys; a new key goes last. *)
Lemma dict_keys_set {V : Type} (k : string) (v : V) (d : list (string * V)) :
  Dict.keys (Dict.set k v d) =
  if Dict.mem k d then Dict.keys d else (Dict.keys d ++ [k])%list.
Proof.
  unfold Dict.mem, Dict.keys. induction d as [|[k' v'] d IH]; simpl; [reflexivity|].
  destruct (String.eqb k' k) eqn:E; simpl; [reflexivity|].
  rewrite IH. now destruct (Dict.get k d).
Qed.

(** ** convert *)

Section Convert.

Context {L : Libraries}.

Lemma convert_command_missing (source destination format : string)
      (exclude : option string) (w : world) :
  os_path_exists source (fs w) = false ->
  convert_command source destination format exclude w
  = (Raised (Exception "Source file does not exist"), w).
Proof.
  intros H. unfold convert_command, bind, get_fs, raise. now rewrite H.
Qed.

Lemma convert_command_present (source destination format : string)
      (exclude : option string) (w : world) (p : list string) (src : node) :
  os_resolve source = Some p ->
  FS.lookup p (fs w) = Some src ->
  convert_command source destination format exclude w
  = (columns <- select_columns src (resolve_exclude exclude) ;;
     export_columns src destination format columns) w.
Proof.
  intros Hp Hs.
  unfold convert_command, bind, get_fs, os_path_exists, FS.exists_.
  rewrite Hp, Hs. reflexivity.
Qed.

Lemma os_path_exists_inv (source : string) (n : node) :
  os_path_exists source n = true ->
  exists p src, os_resolve source = Some p /\ FS.lookup p n = Some src.
Proof.
  unfold os_path_exists, FS.exists_.
  destruct (os_resolve source) as [p|]; [|discriminate].
  destruct (FS.lookup p n) as [src|] eqn:E; [|discriminate]. eauto.
Qed.

Lemma remove_columns_absent (to_exclude names : list string) (col : string) :
  In col to_exclude -> ~ In (Py.strip col) names ->
  remove_columns names to_exclude = None.
Proof.
  revert names. induction to_exclude as [|c rest IH]; simpl; intros names Hin Habs;
    [contradiction|].
  destruct (Py.list_remove (Py.strip c) names) as [names'|] eqn:E; [|reflexivity].
  destruct Hin as [->|Hin].
  - now rewrite (list_remove_absent _ _ Habs) in E.
  - apply IH; [exact Hin|]. intros H. apply Habs. eapply list_remove_subset; eauto.
Qed.

Lemma remove_columns_present (to_exclude names : list string) :
  NoDup names -> NoDup (map Py.strip to_exclude) ->
  (forall col, In col to_exclude -> In (Py.strip col) names) ->
  remove_columns names to_exclude
  = Some (filter (fun c => negb (existsb (String.eqb c) (map Py.strip to_exclude))) names).
Proof.
  revert names. induction to_exclude as [|c rest IH]; simpl; intros names Hn Hx Hall.
  - f_equal. symmetry. apply forallb_filter_id. now apply forallb_forall.
  - inversion Hx as [|? ? Hc Hrest]; subst.
    rewrite (list_remove_nodup _ _ Hn (Hall c (or_introl eq_refl))).
    rewrite IH.
    + f_equal. rewrite filter_twice. apply filter_ext. intros a.
      now rewrite negb_orb.
    + now apply NoDup_filter.
    + exact Hrest.
    + intros col Hcol. apply filter_In. split; [apply Hall; now right|].
      destruct (String.eqb_spec (Py.strip col) (Py.strip c)) as [E|]; [|reflexivity].
      exfalso. apply Hc. rewrite <- E. now apply in_map.
Qed.

Lemma select_columns_nonempty (src : node) (to_exclude names : list string) (w : world) :
  to_exclude <> [] ->
  read_schema_names src = Some names ->
  select_columns src to_exclude w
  = (match remove_columns names to_exclude with
     | Some columns => Returned (Some columns)
     | None => Raised ValueError
     end, w).
Proof.
  intros Hne Hn. unfold select_columns.
  destruct to_exclude as [|c rest]; [congruence|].
  cbn [List.length Nat.ltb Nat.leb]. unfold bind. rewrite Hn. cbn [lift ret].
  now destruct (remove_columns names (c :: rest)).
Qed.

(** C10: with the empty string for [exclude] the exclusion list is the
    single entry [""]; as long as no column of the source carries the
    empty name, [convert] raises and exports nothing, and once the
    schema has been read the error is the [ValueError] of the removal. *)
Theorem convert_empty_exclude_raises
        (source destination format : string) (w : world) :
  (forall p src names,
      os_resolve source = Some p -> FS.lookup p (fs w) = Some src ->
      read_schema_names src = Some names -> ~ In "" names) ->
  resolve_exclude (Some "") = [""] /\
  (exists e, convert_command source destination format (Some "") w = (Raised e, w)) /\
  (forall p src names,
      os_resolve source = Some p -> FS.lookup p (fs w) = Some src ->
      read_schema_names src = Some names ->
      convert_command source destination format (Some "") w = (Raised ValueError, w)).
Proof.
  intros Hcol.
  assert (Hval : forall p src names,
             os_resolve source = Some p -> FS.lookup p (fs w) = Some src ->
             read_schema_names src = Some names ->
             convert_command source destination format (Some "") w
             = (Raised ValueError, w)).
  { intros p src names Hp Hs Hn.
    rewrite (convert_command_present _ _ _ _ _ _ _ Hp Hs).
    unfold bind. rewrite (select_columns_nonempty _ _ names); [|discriminate|exact Hn].
    cbn [resolve_exclude String.eqb Ascii.eqb Bool.eqb orb Py.split remove_columns].
    change (Py.strip "") with "".
    rewrite (list_remove_absent "" names (Hcol _ _ _ Hp Hs Hn)). reflexivity. }
  split; [reflexivity|]. split; [|exact Hval].
  destruct (os_path_exists source (fs w)) eqn:Hex.
  - destruct (os_path_exists_inv _ _ Hex) as (p & src & Hp & Hs).
    destruct (read_schema_names src) as [names|] eqn:Hn.
    + exists ValueError. eauto.
    + exists (LibraryError "pyarrow").
      rewrite (convert_command_present _ _ _ _ _ _ _ Hp Hs).
      unfold bind, select_columns; simpl. unfold bind. now rewrite Hn.
  - eexists. now apply convert_command_missing.
Qed.

(** The option's default value, as click passes it, is the list
    [IGNORE_FIELDS] again. *)
Lemma resolve_exclude_default :
  resolve_exclude (Some (Py.join "," IGNORE_FIELDS)) = resolve_exclude None.
Proof. reflexivity. Qed.

(** C6 (amended): the exclusion list is empty exactly for the two
    spellings [none] and [NONE]; for these the table is read with no
    column selection, so every column of the source is exported. *)
Theorem convert_none_exports_all
        (exclude source destination format : string) (w : world)
        (p : list string) (src : node) :
  os_resolve source = Some p ->
  FS.lookup p (fs w) = Some src ->
  (resolve_exclude (Some exclude) = [] <-> exclude = "none" \/ exclude = "NONE") /\
  (exclude = "none" \/ exclude = "NONE" ->
   convert_command source destination format (Some exclude) w
   = export_columns src destination format None w).
Proof.
  intros Hp Hs. split.
  - unfold resolve_exclude.
    destruct (String.eqb_spec exclude "none") as [->|H1]; simpl.
    + split; auto.
    + destruct (String.eqb_spec exclude "NONE") as [->|H2]; simpl.
      * split; auto.
      * split; [intros H; now apply split_not_nil in H|intros [?|?]; contradiction].
  - intros H. rewrite (convert_command_present _ _ _ _ _ _ _ Hp Hs).
    now destruct H as [->| ->].
Qed.

(** C2 (amended): once the schema is read, an exclusion entry whose
    trimmed name is not a column makes [convert] raise [ValueError] and
    export nothing; when every entry names a column (no name twice on
    either side), the table is read with exactly the columns of the
    schema that no entry names. *)
Theorem convert_exclusion_entries
        (source destination format : string) (exclude : option string)
        (w : world) (p : list string) (src : node) (names : list string) :
  os_resolve source = Some p ->
  FS.lookup p (fs w) = Some src ->
  read_schema_names src = Some names ->
  ((exists col, In col (resolve_exclude exclude) /\ ~ In (Py.strip col) names) ->
   convert_command source destination format exclude w = (Raised ValueError, w))
  /\
  (resolve_exclude exclude <> [] ->
   NoDup names ->
   NoDup (map Py.strip (resolve_exclude exclude)) ->
   (forall col, In col (resolve_exclude exclude) -> In (Py.strip col) names) ->
   convert_command source destination format exclude w
   = export_columns src destination format
       (Some (filter (fun c => negb (existsb (String.eqb c)
                                       (map Py.strip (resolve_exclude exclude))))
                     names)) w).
Proof.
  intros Hp Hs Hn.
  rewrite (convert_command_present _ _ _ _ _ _ _ Hp Hs).
  split.
  - intros (col & Hin & Habs).
    assert (Hne : resolve_exclude exclude <> []).
    { intros E. rewrite E in Hin. contradiction. }
    unfold bind. rewrite (select_columns_nonempty _ _ _ _ Hne Hn).
    now rewrite (remove_columns_absent _ _ _ Hin Habs).
  - intros Hne Hnd Hx Hall.
    unfold bind. rewrite (select_columns_nonempty _ _ _ _ Hne Hn).
    now rewrite (remove_columns_present _ _ Hnd Hx Hall).
Qed.

End Convert.

Lemma convert_empty_exclude_raises_witness :
  convert_command (L := Examples.libs) "in.parquet" "out.gpkg" "gpkg" (Some "") Examples.w0
  = (Raised ValueError, Examples.w0).
Proof.
  refine (proj2 (proj2 (convert_empty_exclude_raises (L := Examples.libs)
            "in.parquet" "out.gpkg" "gpkg" Examples.w0 _))
          _ _ _ eq_refl eq_refl eq_refl).
  intros p src names Hp Hs Hn.
  injection Hp as <-. vm_compute in Hs. injection Hs as <-.
  vm_compute in Hn. injection Hn as <-.
  simpl. intuition discriminate.
Defined.

Lemma convert_none_exports_all_witness :
  convert_command (L := Examples.libs) "in.parquet" "out.gpkg" "gpkg" (Some "NONE") Examples.w0
  = export_columns (L := Examples.libs)
      (Examples.document (JArr [Examples.row "1"; Examples.row "2"]))
      "out.gpkg" "gpkg" None Examples.w0.
Proof.
  apply (proj2 (convert_none_exports_all (L := Examples.libs)
                  "NONE" "in.parquet" "out.gpkg" "gpkg" Examples.w0
                  ["in.parquet"] _ eq_refl eq_refl)).
  right; reflexivity.
Defined.

(** C6, as stated, fails for the capitalised spelling: [None] is taken
    as the name of a column to drop, and the source has no such column. *)
Lemma convert_mixed_case_none_counterexample :
  resolve_exclude (Some "None") = ["None"] /\
  convert_command (L := Examples.libs) "in.parquet" "out.gpkg" "gpkg" (Some "None") Examples.w0
  = (Raised ValueError, Examples.w0).
Proof. split; vm_compute; reflexivity. Qed.

Lemma convert_exclusion_entries_witness :
  convert_command (L := Examples.libs) "in.parquet" "out.gpkg" "gpkg"
                  (Some "assets, geometry_extra") Examples.w0
  = (Raised ValueError, Examples.w0)
  /\
  convert_command (L := Examples.libs) "in.parquet" "out.gpkg" "gpkg" None Examples.w0
  = export_columns (L := Examples.libs)
      (Examples.document (JArr [Examples.row "1"; Examples.row "2"]))
      "out.gpkg" "gpkg" (Some ["id"; "geometry"]) Examples.w0.
Proof.
  split.
  - apply (proj1 (convert_exclusion_entries (L := Examples.libs)
                    "in.parquet" "out.gpkg" "gpkg" (Some "assets, geometry_extra")
                    Examples.w0 ["in.parquet"] _
                    ["id"; "stac_version"; "type"; "assets"; "geometry"]
                    eq_refl eq_refl eq_refl)).
    exists " geometry_extra". split; [right; left; reflexivity|].
    vm_compute. intuition discriminate.
  - apply (proj2 (convert_exclusion_entries (L := Examples.libs)
                    "in.parquet" "out.gpkg" "gpkg" None
                    Examples.w0 ["in.parquet"] _
                    ["id"; "stac_version"; "type"; "assets"; "geometry"]
                    eq_refl eq_refl eq_refl)).
    + discriminate.
    + repeat constructor; simpl; intuition discriminate.
    + repeat constructor; simpl; intuition discriminate.
    + intros col [<-|[<-|[<-|[]]]]; vm_compute; tauto.
Defined.

(** C2, as stated, fails: an exclusion entry that is not a column of the
    source stops the export with [ValueError]; nothing is written. *)
Lemma convert_absent_entry_counterexample :
  In "geometry_extra" (resolve_exclude (Some "geometry_extra")) /\
  @read_schema_names Examples.libs
    (Examples.document (JArr [Examples.row "1"; Examples.row "2"]))
  = Some ["id"; "stac_version"; "type"; "assets"; "geometry"] /\
  convert_command (L := Examples.libs) "in.parquet" "out.gpkg" "gpkg"
                  (Some "geometry_extra") Examples.w0
  = (Raised ValueError, Examples.w0).
Proof. repeat split; vm_compute; auto. Qed.

(** ** The file system *)

Lemma lookup_app_none (p q : list string) (n : node) :
  FS.lookup p n = None -> FS.lookup (p ++ q) n = None.
Proof.
  revert n. induction p as [|c p IH]; simpl; intros n H; [discriminate|].
  destruct n as [data|es]; [reflexivity|].
  destruct (Dict.get c es) as [m|]; [now apply IH|reflexivity].
Qed.

Lemma lookup_put_none (p : list string) (n : node) :
  p <> [] -> FS.lookup p (FS.put p None n) = None.
Proof.
  revert n. induction p as [|c p IH]; intros n Hp; [congruence|].
  destruct n as [data|es]; [reflexivity|].
  destruct p as [|c' p'].
  - simpl. now rewrite dict_get_del_same.
  - cbn [FS.put]. destruct (Dict.get c es) as [m|] eqn:E.
    + cbn [FS.lookup]. rewrite dict_get_set_same. apply IH. discriminate.
    + cbn [FS.lookup]. now rewrite E.
Qed.

Lemma lookup_put_some (p : list string) (m n : node) :
  p <> [] -> FS.is_dir (removelast p) n = true ->
  FS.lookup p (FS.put p (Some m) n) = Some m.
Proof.
  unfold FS.is_dir.
  revert n. induction p as [|c p IH]; intros n Hp Hd; [congruence|].
  destruct p as [|c' p'].
  - simpl in Hd. destruct n as [data|es]; [discriminate|].
    simpl. now rewrite dict_get_set_same.
  - change (removelast (c :: c' :: p')) with (c :: removelast (c' :: p')) in Hd.
    destruct n as [data|es]; [discriminate|].
    cbn [FS.lookup] in Hd. cbn [FS.put].
    destruct (Dict.get c es) as [m1|] eqn:E; [|discriminate].
    cbn [FS.lookup]. rewrite dict_get_set_same. apply IH; [discriminate|exact Hd].
Qed.

(** Whatever is found at a path lies in a directory. *)
Lemma lookup_parent (p : list string) (n x : node) :
  p <> [] -> FS.lookup p n = Some x -> FS.is_dir (removelast p) n = true.
Proof.
  unfold FS.is_dir.
  revert n. induction p as [|c p IH]; intros n Hp H; [congruence|].
  destruct n as [data|es]; [discriminate|].
  destruct p as [|c' p']; [reflexivity|].
  change (removelast (c :: c' :: p')) with (c :: removelast (c' :: p')).
  cbn [FS.lookup] in *. destruct (Dict.get c es) as [m1|]; [|discriminate].
  apply IH; [discriminate|exact H].
Qed.

(** After the clearing of lines 57-61 the destination is neither a file
    nor a directory with anything in it. *)
Lemma cleared_empty (destination : string) (n : node) :
  FS.is_dir [] n = true ->
  FS.is_file (FS.components destination) (cleared destination n) = false /\
  (forall name,
      FS.lookup (FS.components destination ++ [name]) (cleared destination n) = None).
Proof.
  intros Hroot. unfold cleared.
  destruct (FS.components destination) as [|c p] eqn:Ep.
  - rewrite Hroot. simpl. split; [reflexivity|]. intros name. reflexivity.
  - assert (Hnone : forall n', FS.lookup (c :: p) n' = None ->
                      FS.is_file (c :: p) n' = false /\
                      (forall name, FS.lookup ((c :: p) ++ [name]) n' = None)).
    { intros n' H. split; [unfold FS.is_file; now rewrite H|].
      intros name. now apply lookup_app_none. }
    destruct (FS.is_dir (c :: p) n) eqn:Ed.
    + apply Hnone. apply lookup_put_none. discriminate.
    + unfold FS.unlink. destruct (FS.is_file (c :: p) n) eqn:Ef.
      * apply Hnone. apply lookup_put_none. discriminate.
      * apply Hnone. unfold FS.is_dir in Ed. unfold FS.is_file in Ef.
        destruct (FS.lookup (c :: p) n) as [[data|es]|]; congruence.
Qed.

(** ** Runs of monadic code *)

Lemma bind_returned {A B : Type} (c : M A) (k : A -> M B) (w w1 : world) (a : A) :
  c w = (Returned a, w1) -> bind c k w = k a w1.
Proof. intros H. unfold bind. now rewrite H. Qed.

Lemma bind_raised {A B : Type} (c : M A) (k : A -> M B) (w w1 : world) (e : exn) :
  c w = (Raised e, w1) -> bind c k w = (Raised e, w1).
Proof. intros H. unfold bind. now rewrite H. Qed.

Lemma bind_returned_inv {A B : Type} (c : M A) (k : A -> M B) (w w' : world) (b : B) :
  bind c k w = (Returned b, w') ->
  exists a w1, c w = (Returned a, w1) /\ k a w1 = (Returned b, w').
Proof.
  unfold bind. destruct (c w) as [[a|e] w1]; [eauto|discriminate].
Qed.

Lemma writes_app (a b : list event) : writes (a ++ b) = (writes a ++ writes b)%list.
Proof.
  induction a as [|e a IH]; simpl; [reflexivity|].
  destruct e; simpl; now rewrite IH.
Qed.

Lemma tables_app (a b : list event) : tables (a ++ b) = (tables a ++ tables b)%list.
Proof.
  induction a as [|e a IH]; simpl; [reflexivity|].
  destruct e; simpl; now rewrite IH.
Qed.

Section Judgements.

Variable ok : event -> Prop.

Lemma emits_ret {A : Type} (a : A) : emits ok (ret a).
Proof.
  intros w r w' H. injection H as <- <-. exists []. now rewrite app_nil_r.
Qed.

Lemma emits_raise {A : Type} (e : exn) : emits ok (raise (A := A) e).
Proof.
  intros w r w' H. injection H as <- <-. exists []. now rewrite app_nil_r.
Qed.

Lemma emits_lift {A : Type} (o : option A) (e : exn) : emits ok (lift o e).
Proof. destruct o; [apply emits_ret|apply emits_raise]. Qed.

Lemma emits_run {A : Type} (o : outcome A) : emits ok (run o).
Proof. destruct o; [apply emits_ret|apply emits_raise]. Qed.

Lemma emits_get_fs : emits ok get_fs.
Proof.
  intros w r w' H. injection H as <- <-. exists []. now rewrite app_nil_r.
Qed.

Lemma emits_set_fs (n : node) : emits ok (set_fs n).
Proof.
  intros w r w' H. injection H as <- <-. exists []. simpl. now rewrite app_nil_r.
Qed.

Lemma emits_emit (e : event) : ok e -> emits ok (emit e).
Proof.
  intros He w r w' H. injection H as <- <-. exists [e]. simpl. auto.
Qed.

Lemma emits_bind_returns {A B : Type} (Q : A -> Prop) (c : M A) (k : A -> M B) :
  emits ok c -> returns Q c -> (forall a, Q a -> emits ok (k a)) -> emits ok (bind c k).
Proof.
  intros Hc HQ Hk w r w' H. unfold bind in H.
  destruct (c w) as [[a|e] w1] eqn:E.
  - destruct (Hc _ _ _ E) as (evs1 & T1 & F1).
    destruct (Hk a (HQ _ _ _ E) _ _ _ H) as (evs2 & T2 & F2).
    exists (evs1 ++ evs2)%list. rewrite T2, T1, app_assoc.
    split; [reflexivity|]. apply Forall_app; auto.
  - injection H as <- <-. eauto.
Qed.

Lemma emits_bind {A B : Type} (c : M A) (k : A -> M B) :
  emits ok c -> (forall a, emits ok (k a)) -> emits ok (bind c k).
Proof.
  intros Hc Hk. apply (emits_bind_returns (fun _ => True)); auto.
  intros w a w' _. exact I.
Qed.

Lemma emits_read_text (path : string) :
  ok (ReadFile path) -> emits ok (read_text path).
Proof.
  intros Hok. unfold read_text. apply emits_bind; [apply emits_get_fs|]. intros n.
  destruct (os_resolve path) as [p|]; [|apply emits_raise].
  destruct (FS.lookup p n) as [[data|es]|]; try apply emits_raise.
  apply emits_bind; [now apply emits_emit|]. intros _. apply emits_ret.
Qed.

Lemma emits_write_file (path data : string) :
  ok (WriteFile path) -> emits ok (write_file path data).
Proof.
  intros Hok. unfold write_file. apply emits_bind; [apply emits_get_fs|]. intros n.
  destruct (os_resolve path) as [p|]; [|apply emits_raise].
  destruct (FS.is_dir p n); [apply emits_raise|].
  destruct (FS.is_dir (removelast p) n); [|apply emits_raise].
  apply emits_bind; [apply emits_set_fs|]. intros _. now apply emits_emit.
Qed.

Lemma emits_mkdir (path : string) : emits ok (mkdir path).
Proof.
  unfold mkdir. apply emits_bind; [apply emits_get_fs|]. intros n.
  destruct (FS.exists_ (FS.components path) n); [apply emits_raise|].
  destruct (FS.is_dir (removelast (FS.components path)) n);
    [apply emits_set_fs|apply emits_raise].
Qed.

Lemma emits_dask_compute (ts : list (M unit)) :
  Forall (emits ok) ts -> emits ok (dask_compute ts).
Proof.
  induction 1 as [|t ts Ht _ IH]; simpl; [apply emits_ret|].
  apply emits_bind; auto.
Qed.

End Judgements.

Lemma returns_ret {A : Type} (Q : A -> Prop) (a : A) : Q a -> returns Q (ret a).
Proof. intros H w a' w' E. now injection E as <- <-. Qed.

Lemma returns_raise {A : Type} (Q : A -> Prop) (e : exn) : returns Q (raise e).
Proof. intros w a' w' E. discriminate. Qed.

Lemma returns_bind {A B : Type} (P : A -> Prop) (Q : B -> Prop) (c : M A) (k : A -> M B) :
  returns P c -> (forall a, P a -> returns Q (k a)) -> returns Q (bind c k).
Proof.
  intros Hc Hk w b w' E.
  destruct (bind_returned_inv _ _ _ _ _ E) as (a & w1 & E1 & E2).
  exact (Hk a (Hc _ _ _ E1) _ _ _ E2).
Qed.

Lemma returns_any {A : Type} (c : M A) : returns (fun _ => True) c.
Proof. intros w a w' _. exact I. Qed.

(** ** create *)

Section Create.

Context {L : Libraries}.

Lemma clear_destination_run (destination : string) (w : world) :
  clear_destination destination w
  = (Returned tt, World (cleared destination (fs w)) (trace w)).
Proof. reflexivity. Qed.

Lemma prepare_destination_single (destination : string) (partition : Z) (w : world) :
  (partition <= 1)%Z ->
  prepare_destination destination partition w
  = (Returned tt, World (cleared destination (fs w)) (trace w)).
Proof.
  intros H. unfold prepare_destination.
  rewrite (bind_returned _ _ _ _ _ (clear_destination_run destination w)).
  destruct (Z.gtb_spec partition 1); [lia|reflexivity].
Qed.

(** C1: for a remote source whose body is a JSON object (with or
    without features), [create] with a partition count of at most 1
    raises [UnboundLocalError] on the local [paths], which only the
    file-system branch binds: no table is built and nothing is written. *)
Theorem create_remote_single_batch_raises
        (source destination collection : string) (partition : Z) (w : world)
        (body : string) (d : list (string * json)) :
  is_remote source = true ->
  (partition <= 1)%Z ->
  requests_get source = Some body ->
  json_loads body = Some (JObj d) ->
  create_command source destination collection partition w
  = (Raised (UnboundLocalError "paths"),
     World (cleared destination (fs w))
           (trace w ++ [Print "Requesting remote source"; HttpGet source])).
Proof.
  intros Hr Hp Hget Hload. unfold create_command.
  rewrite (bind_returned _ _ _ _ _ (prepare_destination_single destination _ w Hp)).
  unfold extract, from_remote. rewrite Hr.
  assert (Hgt : (partition >? 1)%Z = false)
    by (destruct (Z.gtb_spec partition 1); [lia|reflexivity]).
  unfold bind, print, emit, lift, run, ret, raise; simpl.
  rewrite Hget, Hload; simpl. rewrite Hgt; simpl.
  now rewrite <- app_assoc.
Qed.

(** C5: for a source that is neither remote nor an existing path,
    [create] raises [UnboundLocalError] on the local [paths] right after
    the destination is prepared, instead of the no-items exception. *)
Theorem create_unknown_source_raises
        (source destination collection : string) (partition : Z) (w w1 : world) :
  is_remote source = false ->
  prepare_destination destination partition w = (Returned tt, w1) ->
  os_path_exists source (fs w1) = false ->
  create_command source destination collection partition w
  = (Raised (UnboundLocalError "paths"), w1).
Proof.
  intros Hr Hprep Hex. unfold create_command.
  rewrite (bind_returned _ _ _ _ _ Hprep).
  unfold extract. rewrite Hr.
  unfold bind, get_fs. rewrite Hex. reflexivity.
Qed.

End Create.

Lemma create_remote_single_batch_raises_witness :
  create_command (L := Examples.libs)
                 "https://example.com/items" "out.parquet" "" 1 Examples.w0
  = (Raised (UnboundLocalError "paths"),
     World (cleared "out.parquet" Examples.tree)
           [Print "Requesting remote source"; HttpGet "https://example.com/items"]).
Proof.
  apply (create_remote_single_batch_raises (L := Examples.libs)
           "https://example.com/items" "out.parquet" "" 1 Examples.w0
           (Sample.dumps (JObj [("type", JStr "FeatureCollection");
                                ("features", JArr [Examples.item "1" "Feature";
                                                   Examples.item "2" "Collection"])]))
           [("type", JStr "FeatureCollection");
            ("features", JArr [Examples.item "1" "Feature";
                               Examples.item "2" "Collection"])]).
  - reflexivity.
  - lia.
  - reflexivity.
  - vm_compute. reflexivity.
Defined.

Lemma create_unknown_source_raises_witness :
  create_command (L := Examples.libs) "missing" "out.parquet" "" 1 Examples.w0
  = (Raised (UnboundLocalError "paths"), Examples.w0).
Proof.
  apply (create_unknown_source_raises (L := Examples.libs)
           "missing" "out.parquet" "" 1 Examples.w0 Examples.w0).
  - reflexivity.
  - vm_compute. reflexivity.
  - vm_compute. reflexivity.
Defined.

Section Extraction.

Context {L : Libraries}.

Lemma read_text_file (path : string) (p : list string) (text : string) (w : world) :
  os_resolve path = Some p ->
  FS.lookup p (fs w) = Some (File text) ->
  read_text path w = (Returned text, World (fs w) (trace w ++ [ReadFile path])).
Proof.
  intros Hp Hl. unfold read_text, bind, get_fs. rewrite Hp, Hl. reflexivity.
Qed.

Lemma load_items_no_features (paths : list string) (items : json) (w : world) :
  Forall (holds_no_feature (fs w)) paths ->
  load_items paths items w
  = (Returned items, World (fs w) (trace w ++ map ReadFile paths)).
Proof.
  revert w. induction paths as [|path rest IH]; intros w H.
  - simpl. unfold ret. destruct w; simpl. now rewrite app_nil_r.
  - inversion H as [|? ? (p & text & item & Hp & Hl & Hj & Hf) Hrest]; subst.
    cbn [load_items].
    rewrite (bind_returned _ _ _ _ _ (read_text_file _ _ _ _ Hp Hl)).
    rewrite Hj. cbn [lift]. unfold bind at 1. cbn [ret].
    rewrite Hf. cbn [run]. unfold bind at 1. cbn [ret].
    unfold bind at 1. cbn [ret].
    rewrite IH; [|exact Hrest]. cbn [fs trace map].
    now rewrite <- app_assoc.
Qed.

Lemma writes_map_read (paths : list string) : writes (map ReadFile paths) = [].
Proof. induction paths; simpl; auto. Qed.

Lemma tables_map_read (paths : list string) : tables (map ReadFile paths) = [].
Proof. induction paths; simpl; auto. Qed.

Lemma extract_file_system_single (source : string) (partition : Z) (w : world) :
  (partition <= 1)%Z ->
  is_remote source = false ->
  os_path_exists source (fs w) = true ->
  extract source partition w
  = (Returned (Locals (JArr []) None (Some (collect_paths source (fs w)))),
     World (fs w)
           (trace w ++
            [Print "Reading from file system";
             Print ("Found " ++ Py.str_of_nat (List.length (collect_paths source (fs w)))
                    ++ " potential STAC Items")])).
Proof.
  intros Hp Hr Hex. unfold extract. rewrite Hr.
  unfold bind at 1. cbn [get_fs]. rewrite Hex.
  assert (Hgt : (partition >? 1)%Z = false)
    by (destruct (Z.gtb_spec partition 1); [lia|reflexivity]).
  unfold from_file_system, bind, print, emit, get_fs, ret. cbn [fs trace].
  rewrite Hgt. now rewrite <- app_assoc.
Qed.

(** C4 (amended): with a partition count of at most 1 and a source on
    the file system, when every collected file holds a record that is
    not a Feature, [create] raises the no-items exception; up to then it
    has only printed and read, and the cleared destination is neither a
    file nor a directory with anything in it. *)
Theorem create_no_items_aborts
        (source destination collection : string) (partition : Z) (w : world) :
  (partition <= 1)%Z ->
  is_remote source = false ->
  FS.is_dir [] (fs w) = true ->
  os_path_exists source (cleared destination (fs w)) = true ->
  Forall (holds_no_feature (cleared destination (fs w)))
         (collect_paths source (cleared destination (fs w))) ->
  exists evs,
    create_command source destination collection partition w
    = (Raised (Exception "Aborting, no items available"),
       World (cleared destination (fs w)) (trace w ++ evs)) /\
    writes evs = [] /\
    tables evs = [] /\
    FS.is_file (FS.components destination) (cleared destination (fs w)) = false /\
    (forall name,
        FS.lookup (FS.components destination ++ [name]) (cleared destination (fs w))
        = None).
Proof.
  intros Hp Hr Hroot Hex Hall.
  set (n := cleared destination (fs w)) in *.
  set (paths := collect_paths source n) in *.
  exists ([Print "Reading from file system";
           Print ("Found " ++ Py.str_of_nat (List.length paths) ++ " potential STAC Items")]
          ++ map ReadFile paths)%list.
  split; [|split; [|split]].
  - unfold create_command.
    rewrite (bind_returned _ _ _ _ _ (prepare_destination_single destination _ w Hp)).
    fold n.
    rewrite (bind_returned _ _ _ _ _
               (extract_file_system_single source partition (World n (trace w)) Hp Hr Hex)).
    cbn [fs trace]. fold paths.
    apply bind_raised. unfold write_artifact. cbn [bag_ paths items lift].
    rewrite (bind_returned _ _ _ _ paths eq_refl).
    rewrite (bind_returned _ _ _ _ _ (load_items_no_features paths _ (World n _) Hall)).
    cbn [fs trace]. unfold bind, run, py_len, ret, raise. cbn.
    now rewrite <- !app_assoc.
  - simpl. apply writes_map_read.
  - simpl. apply tables_map_read.
  - now apply cleared_empty.
Qed.

End Extraction.

Lemma create_no_items_aborts_witness :
  exists evs,
    create_command (L := Examples.libs) "containers" "old.parquet" "" 1 Examples.w0
    = (Raised (Exception "Aborting, no items available"),
       World (cleared "old.parquet" Examples.tree) evs) /\
    writes evs = [] /\
    FS.lookup ["old.parquet"] (cleared "old.parquet" Examples.tree) = None.
Proof.
  destruct (create_no_items_aborts (L := Examples.libs)
              "containers" "old.parquet" "" 1 Examples.w0)
    as (evs & Hrun & Hw & _ & _ & _).
  - lia.
  - reflexivity.
  - reflexivity.
  - vm_compute. reflexivity.
  - vm_compute. repeat constructor.
    exists ["containers"; "extent.json"], (Sample.dumps (Examples.item "e" "Collection")),
           (Examples.item "e" "Collection").
    repeat split; vm_compute; reflexivity.
  - exists evs. split; [exact Hrun|split; [exact Hw|vm_compute; reflexivity]].
Defined.

(** C4, as stated, fails for a partition count above 1: on a directory
    without a single Feature the run creates the destination directory,
    builds a table from no records and writes it. *)
Lemma create_partitioned_no_items_counterexample :
  let run := create_command (L := Examples.libs) "containers" "out" "" 2 Examples.w0 in
  fst run = Returned tt /\
  tables (trace (snd run)) = [[]] /\
  writes (trace (snd run)) = ["out/part.0.parquet"] /\
  FS.is_file ["out"; "part.0.parquet"] (fs (snd run)) = true.
Proof. vm_compute. repeat split. Qed.

(** ** What a run of create adds to the trace *)

Section TraceOfCreate.

Context {L : Libraries}.

Variable ok : event -> Prop.
Hypothesis ok_print : forall line, ok (Print line).
Hypothesis ok_http : forall url, ok (HttpGet url).
Hypothesis ok_read : forall path, ok (ReadFile path).

Lemma emits_print (line : string) : emits ok (print line).
Proof. apply emits_emit, ok_print. Qed.

Lemma emits_prepare_destination (destination : string) (partition : Z) :
  emits ok (prepare_destination destination partition).
Proof.
  unfold prepare_destination, clear_destination.
  apply emits_bind; [apply emits_bind; [apply emits_get_fs|intros; apply emits_set_fs]|].
  intros _. destruct (partition >? 1)%Z; [|apply emits_ret].
  apply emits_bind; [apply emits_mkdir|intros _; apply emits_print].
Qed.

Lemma emits_from_remote (source : string) (partition : Z) :
  emits ok (from_remote source partition).
Proof.
  unfold from_remote.
  apply emits_bind; [apply emits_print|intros _].
  apply emits_bind; [apply emits_emit, ok_http|intros _].
  apply emits_bind; [apply emits_lift|intros body].
  apply emits_bind; [apply emits_lift|intros doc].
  apply emits_bind; [apply emits_run|intros features].
  destruct (partition >? 1)%Z; [|apply emits_ret].
  apply emits_bind; [apply emits_run|intros seq; apply emits_ret].
Qed.

Lemma emits_from_file_system (source : string) (partition : Z) :
  emits ok (from_file_system source partition).
Proof.
  unfold from_file_system.
  apply emits_bind; [apply emits_print|intros _].
  apply emits_bind; [apply emits_get_fs|intros n].
  apply emits_bind; [apply emits_print|intros _].
  destruct (partition >? 1)%Z; apply emits_ret.
Qed.

Lemma emits_extract (source : string) (partition : Z) :
  emits ok (extract source partition).
Proof.
  unfold extract. destruct (is_remote source); [apply emits_from_remote|].
  apply emits_bind; [apply emits_get_fs|intros n].
  destruct (os_path_exists source n); [apply emits_from_file_system|apply emits_ret].
Qed.

Lemma emits_read_features (files : list string) : emits ok (read_features files).
Proof.
  induction files as [|file rest IH]; simpl; [apply emits_ret|].
  apply emits_bind; [apply emits_read_text, ok_read|intros text].
  apply emits_bind; [apply emits_lift|intros item].
  apply emits_bind; [apply emits_run|intros keep].
  apply emits_bind; [exact IH|intros more; apply emits_ret].
Qed.

Lemma emits_load_items (paths : list string) (items : json) :
  emits ok (load_items paths items).
Proof.
  revert items. induction paths as [|p rest IH]; intros items; simpl; [apply emits_ret|].
  apply emits_bind; [apply emits_read_text, ok_read|intros text].
  apply emits_bind; [apply emits_lift|intros item].
  apply emits_bind; [apply emits_run|intros keep].
  apply emits_bind; [destruct keep; [apply emits_run|apply emits_ret]|intros items'].
  apply IH.
Qed.

Hypothesis ok_write : forall path, ok (WriteFile path).

Lemma emits_link_collection (destination collection : string) :
  emits ok (link_collection destination collection).
Proof.
  unfold link_collection.
  destruct (0 <? String.length collection)%nat; [|apply emits_ret].
  apply emits_bind; [apply emits_read_text, ok_read|intros old].
  apply emits_bind; [apply emits_lift|intros doc].
  apply emits_bind; [apply emits_run|intros doc'].
  apply emits_bind; [apply emits_write_file, ok_write|intros _; apply emits_print].
Qed.

(** A task adds a table of whatever its records are known to be. *)
Lemma emits_to_parquet_task (Q : list json -> Prop) (records : M (list json))
      (path : string) :
  emits ok records -> returns Q records ->
  (forall rs, Q rs -> ok (BuildTable rs)) ->
  emits ok (to_parquet_task records path).
Proof.
  intros He Hr Hb. unfold to_parquet_task.
  apply (emits_bind_returns ok Q); [exact He|exact Hr|intros rs Hrs].
  apply emits_bind; [apply emits_emit, Hb, Hrs|intros _].
  apply emits_bind; [apply emits_lift|intros df].
  apply emits_write_file, ok_write.
Qed.

Lemma emits_tasks (Q : list json -> Prop) (destination : string)
      (dfs : list (M (list json))) :
  Forall (fun r => emits ok r /\ returns Q r) dfs ->
  (forall rs, Q rs -> ok (BuildTable rs)) ->
  Forall (emits ok) (tasks destination dfs).
Proof.
  intros Hd Hb. unfold tasks, enumerate. generalize 0.
  induction Hd as [|r dfs [He Hr] _ IH]; intros i; simpl; constructor.
  - now apply (emits_to_parquet_task Q).
  - apply IH.
Qed.

End TraceOfCreate.

Section OnlyFeatures.

Context {L : Libraries}.

Lemma returns_run {A : Type} (o : outcome A) :
  returns (fun a => o = Returned a) (run o).
Proof. intros w a w' H. destruct o; [now injection H as <- <-|discriminate]. Qed.

Lemma builds_features_print (line : string) : builds_features (Print line).
Proof. exact I. Qed.

Lemma builds_features_http (url : string) : builds_features (HttpGet url).
Proof. exact I. Qed.

Lemma builds_features_read (path : string) : builds_features (ReadFile path).
Proof. exact I. Qed.

Lemma builds_features_write (path : string) : builds_features (WriteFile path).
Proof. exact I. Qed.

Lemma returns_read_features (files : list string) :
  returns only_features (read_features files).
Proof.
  induction files as [|file rest IH]; simpl; [apply returns_ret; constructor|].
  apply (returns_bind (fun _ => True)); [apply returns_any|intros text _].
  apply (returns_bind (fun _ => True)); [apply returns_any|intros item _].
  eapply returns_bind; [apply returns_run|intros keep Hkeep].
  eapply returns_bind; [exact IH|intros more Hmore].
  apply returns_ret. destruct keep; [constructor; assumption|assumption].
Qed.

Lemma returns_load_items (paths : list string) (acc : list json) :
  only_features acc ->
  returns (fun v => exists l, v = JArr l /\ only_features l)
          (load_items paths (JArr acc)).
Proof.
  revert acc. induction paths as [|p rest IH]; intros acc Hacc; simpl;
    [apply returns_ret; eauto|].
  apply (returns_bind (fun _ => True)); [apply returns_any|intros text _].
  apply (returns_bind (fun _ => True)); [apply returns_any|intros item _].
  eapply returns_bind; [apply returns_run|intros keep Hkeep].
  apply (returns_bind (fun v => exists l, v = JArr l /\ only_features l)).
  - destruct keep; [|apply returns_ret; eauto].
    simpl. apply returns_ret. exists (acc ++ [item])%list. split; [reflexivity|].
    apply Forall_app. split; [exact Hacc|constructor; [exact Hkeep|constructor]].
  - intros v (l & -> & Hl). now apply IH.
Qed.

Lemma returns_extract_off_remote (source : string) (partition : Z) :
  is_remote source = false ->
  returns off_remote (extract source partition).
Proof.
  intros Hr. unfold extract. rewrite Hr.
  apply (returns_bind (fun _ => True)); [apply returns_any|intros n _].
  destruct (os_path_exists source n); [|apply returns_ret; now split].
  unfold from_file_system.
  apply (returns_bind (fun _ => True)); [apply returns_any|intros _ _].
  apply (returns_bind (fun _ => True)); [apply returns_any|intros n' _].
  apply (returns_bind (fun _ => True)); [apply returns_any|intros _ _].
  destruct (partition >? 1)%Z; apply returns_ret; now split.
Qed.

Lemma emits_write_artifact_off_remote (destination : string) (l : locals) :
  off_remote l -> emits builds_features (write_artifact destination l).
Proof.
  intros [Hitems Hbag]. unfold write_artifact.
  destruct (bag_ l) as [[parts|parts]|]; [contradiction| |].
  - apply emits_bind; [apply emits_print, builds_features_print|intros _].
    apply emits_bind; [|intros _; apply emits_print, builds_features_print].
    apply emits_dask_compute.
    apply (emits_tasks builds_features builds_features_write only_features);
      [|intros rs Hrs; exact Hrs].
    simpl. apply Forall_map, Forall_forall. intros part _. split.
    + apply emits_read_features; [exact builds_features_read].
    + apply returns_read_features.
  - apply emits_bind; [apply emits_lift|intros paths].
    rewrite Hitems.
    apply (emits_bind_returns builds_features
             (fun v => exists l, v = JArr l /\ only_features l)).
    + apply emits_load_items. exact builds_features_read.
    + apply returns_load_items. constructor.
    + intros v (rs & -> & Hrs).
      apply emits_bind; [apply emits_run|intros num].
      destruct (0 <? num)%nat; [|apply emits_raise].
      apply emits_bind; [apply emits_print, builds_features_print|intros _].
      simpl. unfold bind at 1. cbn [ret].
      apply emits_bind; [apply emits_emit; exact Hrs|intros _].
      apply emits_bind; [apply emits_lift|intros df].
      apply emits_bind; [apply emits_print, builds_features_print|intros _].
      apply emits_bind; [apply emits_write_file, builds_features_write|intros _].
      apply emits_print, builds_features_print.
Qed.

(** C3 (amended): when the source is not remote, whatever the partition
    count and however the run ends, every batch of records handed to the
    table builder holds only records whose [type] is [Feature]. *)
Theorem create_off_remote_builds_features
        (source destination collection : string) (partition : Z)
        (w w' : world) (r : outcome unit) :
  is_remote source = false ->
  create_command source destination collection partition w = (r, w') ->
  exists evs,
    trace w' = (trace w ++ evs)%list /\
    forall records,
      In (BuildTable records) evs ->
      Forall (fun item => is_feature item = Returned true) records.
Proof.
  intros Hr Hrun.
  assert (He : emits builds_features
                 (create_command source destination collection partition)).
  { unfold create_command.
    apply emits_bind; [apply emits_prepare_destination, builds_features_print|intros _].
    apply (emits_bind_returns builds_features off_remote).
    - apply emits_extract;
        [exact builds_features_print|exact builds_features_http].
    - now apply returns_extract_off_remote.
    - intros l Hl.
      apply emits_bind; [now apply emits_write_artifact_off_remote|intros _].
      apply emits_link_collection;
        [exact builds_features_print|exact builds_features_read
        |exact builds_features_write]. }
  destruct (He _ _ _ Hrun) as (evs & Ht & Hall).
  exists evs. split; [exact Ht|]. intros records Hin.
  exact (proj1 (Forall_forall _ _) Hall _ Hin).
Qed.

End OnlyFeatures.

Lemma create_off_remote_builds_features_witness :
  exists evs,
    trace (snd (create_command (L := Examples.libs) "stac" "out" "" 2 Examples.w0))
    = (trace Examples.w0 ++ evs)%list /\
    forall records,
      In (BuildTable records) evs ->
      Forall (fun item => is_feature item = Returned true) records.
Proof.
  apply (create_off_remote_builds_features (L := Examples.libs)
           "stac" "out" "" 2 Examples.w0 _
           (fst (create_command (L := Examples.libs) "stac" "out" "" 2 Examples.w0))).
  - reflexivity.
  - vm_compute. reflexivity.
Defined.

(** C3, as stated, fails for a remote source: the [features] array is
    taken as it is, and a record of another type reaches the table
    builder and the file of its partition. *)
Lemma create_remote_unfiltered_counterexample :
  let run := create_command (L := Examples.libs)
                            "https://example.com/items" "out" "" 2 Examples.w0 in
  fst run = Returned tt /\
  In (BuildTable [Examples.item "2" "Collection"]) (trace (snd run)) /\
  is_feature (Examples.item "2" "Collection") = Returned false.
Proof. vm_compute. split; [reflexivity|]. split; [|reflexivity]. intuition. Qed.

(** ** The walk of the source directory *)

Lemma node_nested_ind (P : node -> Prop) :
  (forall data, P (File data)) ->
  (forall es, Forall (fun e => P (snd e)) es -> P (Dir es)) ->
  forall n, P n.
Proof.
  intros HF HD. fix IH 1. intros [data|es]; [apply HF|].
  apply HD. induction es as [|[name m] es IHes]; constructor; [apply IH|exact IHes].
Qed.

Lemma os_walk_dir (top : string) (es : list (string * node)) :
  os_walk top (Dir es)
  = (top, FS.dirnames es, FS.filenames es) ::
    flat_map (fun e => match snd e with
                       | Dir _ => os_walk (os_path_join top (fst e)) (snd e)
                       | File _ => []
                       end) es.
Proof.
  cbn [os_walk]. f_equal.
  induction es as [|[name m] es IH]; [reflexivity|].
  cbn [flat_map fst snd]. destruct m as [data|sub]; [exact IH|].
  now rewrite IH.
Qed.

Lemma in_filenames (name : string) (es : list (string * node)) :
  In name (FS.filenames es) <-> exists data, In (name, File data) es.
Proof.
  unfold FS.filenames. rewrite in_map_iff. split.
  - intros ([k m] & <- & Hin). apply filter_In in Hin as [Hin Hf].
    destruct m as [data|sub]; [|discriminate]. now exists data.
  - intros (data & Hin). exists (name, File data). split; [reflexivity|].
    apply filter_In. now split.
Qed.

(** The triples of the walk list exactly the files [walked] describes. *)
Lemma os_walk_walked (tree : node) :
  forall top root name,
    walked top tree root name <->
    exists dirs files, In (root, dirs, files) (os_walk top tree) /\ In name files.
Proof.
  induction tree as [data|es IH] using node_nested_ind; intros top root name.
  - split; [intros H; inversion H|intros (dirs & files & [] & _)].
  - rewrite os_walk_dir. split.
    + intros H. inversion H as [? ? ? data Hin|? ? sub d ? ? Hin Hsub]; subst.
      * exists (FS.dirnames es), (FS.filenames es). split; [now left|].
        apply in_filenames. now exists data.
      * rewrite Forall_forall in IH.
        apply (IH (d, Dir sub) Hin) in Hsub as (dirs & files & Hw & Hn).
        exists dirs, files. split; [|exact Hn]. right.
        apply in_flat_map. exists (d, Dir sub). split; [exact Hin|exact Hw].
    + intros (dirs & files & [Heq|Hin] & Hn).
      * injection Heq as <- <- <-. apply in_filenames in Hn as (data & Hn).
        now apply walked_here with data.
      * apply in_flat_map in Hin as ([d m] & Hin & Hw). cbn [fst snd] in Hw.
        destruct m as [data|sub]; [contradiction|].
        apply walked_below with sub d; [exact Hin|].
        rewrite Forall_forall in IH. apply (IH (d, Dir sub) Hin).
        now exists dirs, files.
Qed.

Lemma is_item_file_true (name : string) :
  is_item_file name = true <->
  Py.endswith name ".json" = true /\ name <> "catalog.json" /\ name <> "collection.json".
Proof.
  unfold is_item_file.
  destruct (Py.endswith name ".json"); simpl; [|intuition discriminate].
  destruct (String.eqb_spec name "catalog.json") as [->|H1]; simpl;
    [intuition congruence|].
  destruct (String.eqb_spec name "collection.json") as [->|H2]; simpl;
    intuition congruence.
Qed.

Section Walk.

Context {L : Libraries}.

(** The loop of lines 114-118 opens collected paths only. *)
Lemma load_items_reads (paths : list string) :
  forall items w r w',
    load_items paths items w = (r, w') ->
    exists evs,
      trace w' = (trace w ++ evs)%list /\
      forall path, In (ReadFile path) evs -> In path paths.
Proof.
  induction paths as [|p rest IH]; intros items w r w' H.
  - injection H as <- <-. exists []. rewrite app_nil_r. split; [reflexivity|intros ? []].
  - cbn [load_items] in H. unfold bind at 1 in H.
    destruct (read_text p w) as [[text|e] w1] eqn:E1.
    + assert (T1 : exists evs1, trace w1 = (trace w ++ evs1)%list /\
                     forall path, In (ReadFile path) evs1 -> path = p).
      { unfold read_text, bind, get_fs in E1.
        destruct (os_resolve p) as [q|]; [|discriminate].
        destruct (FS.lookup q (fs w)) as [[data|es]|]; try discriminate.
        injection E1 as <- <-. exists [ReadFile p]. split; [reflexivity|].
        intros path [Hp|[]]. now injection Hp as <-. }
      destruct T1 as (evs1 & T1 & R1).
      unfold bind at 1 in H.
      destruct (json_loads text) as [item|]; cbn [lift ret raise] in H;
        [|injection H as <- <-; exists evs1; split; [exact T1|];
          intros path Hp; left; symmetry; eauto].
      unfold bind at 1 in H.
      destruct (is_feature item) as [keep|e]; cbn [run ret raise] in H;
        [|injection H as <- <-; exists evs1; split; [exact T1|];
          intros path Hp; left; symmetry; eauto].
      unfold bind at 1 in H.
      assert (Hstep : exists items',
                 (if keep then run (py_append items item) else ret items) w1
                 = (Returned items', w1) \/
                 exists e, (if keep then run (py_append items item) else ret items) w1
                           = (Raised e, w1)).
      { destruct keep; [|exists items; now left].
        destruct (py_append items item) as [v|e]; [exists v; now left|].
        exists items. right. now exists e. }
      destruct Hstep as (items' & [Hs|(e & Hs)]); rewrite Hs in H.
      * apply IH in H as (evs2 & T2 & R2).
        exists (evs1 ++ evs2)%list. rewrite T2, T1, app_assoc. split; [reflexivity|].
        intros path Hp. apply in_app_or in Hp as [Hp|Hp];
          [left; symmetry; eauto|right; eauto].
      * injection H as <- <-. exists evs1. split; [exact T1|].
        intros path Hp; left; symmetry; eauto.
    + injection H as <- <-.
      unfold read_text, bind, get_fs in E1.
      exists []. rewrite app_nil_r. split; [|intros ? []].
      destruct (os_resolve p) as [q|]; [|now injection E1 as _ <-].
      destruct (FS.lookup q (fs w)) as [[data|es]|]; try discriminate;
        now injection E1 as _ <-.
Qed.

(** C7: for a source that exists, the collected paths are exactly the
    joins of the walk's directory string with the name of a file, at
    any depth of the tree, whose name ends in [.json] and is neither
    [catalog.json] nor [collection.json]; and the loading loop opens
    no file but the collected ones. *)
Theorem collect_paths_walks_items
        (source : string) (n : node) (p : list string) (tree : node) :
  os_resolve source = Some p ->
  FS.lookup p n = Some tree ->
  (forall path,
      In path (collect_paths source n) <->
      exists root name,
        walked source tree root name /\
        path = os_path_join root name /\
        Py.endswith name ".json" = true /\
        name <> "catalog.json" /\ name <> "collection.json")
  /\
  (forall items w r w',
      load_items (collect_paths source n) items w = (r, w') ->
      exists evs,
        trace w' = (trace w ++ evs)%list /\
        forall path, In (ReadFile path) evs -> In path (collect_paths source n)).
Proof.
  intros Hp Hl. split; [|apply load_items_reads].
  intros path. unfold collect_paths. rewrite Hp, Hl. rewrite in_flat_map. split.
  - intros ([[root dirs] files] & Hw & Hin).
    apply in_map_iff in Hin as (name & <- & Hin).
    apply filter_In in Hin as [Hin Hk]. apply is_item_file_true in Hk.
    exists root, name. split; [|split; [reflexivity|exact Hk]].
    apply os_walk_walked. now exists dirs, files.
  - intros (root & name & Hw & -> & Hk).
    apply os_walk_walked in Hw as (dirs & files & Hw & Hin).
    exists (root, dirs, files). split; [exact Hw|].
    apply in_map. apply filter_In. split; [exact Hin|now apply is_item_file_true].
Qed.

End Walk.

Lemma collect_paths_walks_items_witness :
  (In "stac/2024/item2.json" (collect_paths "stac" Examples.tree) <->
   exists root name,
     walked "stac"
            (Dir [ ("catalog.json", Examples.document (Examples.item "root" "Catalog"));
                   ("item1.json", Examples.document (Examples.item "1" "Feature"));
                   ("2024",
                    Dir [ ("collection.json", Examples.document (Examples.item "c" "Collection"));
                          ("item2.json", Examples.document (Examples.item "2" "Feature"));
                          ("readme.txt", File "not an item") ]) ])
            root name /\
     "stac/2024/item2.json" = os_path_join root name /\
     Py.endswith name ".json" = true /\
     name <> "catalog.json" /\ name <> "collection.json")
  /\ collect_paths "stac" Examples.tree = ["stac/item1.json"; "stac/2024/item2.json"].
Proof.
  split; [|reflexivity].
  exact (proj1 (collect_paths_walks_items (L := Examples.libs)
                  "stac" Examples.tree ["stac"] _ eq_refl eq_refl)
               "stac/2024/item2.json").
Defined.

(** ** The files of the partitions *)

Lemma string_length_app (a b : string) :
  String.length (a ++ b) = String.length a + String.length b.
Proof. induction a as [|c a IH]; simpl; [reflexivity|now rewrite IH]. Qed.

Lemma string_app_cancel_l (a x y : string) : a ++ x = a ++ y -> x = y.
Proof.
  induction a as [|c a IH]; simpl; intros H; [exact H|].
  injection H as H. auto.
Qed.

Lemma string_app_cancel_r (b x y : string) : x ++ b = y ++ b -> x = y.
Proof.
  revert y. induction x as [|c x IH]; intros [|c' y] H; simpl in H.
  - reflexivity.
  - apply (f_equal String.length) in H. simpl in H.
    rewrite string_length_app in H. lia.
  - apply (f_equal String.length) in H. simpl in H.
    rewrite string_length_app in H. lia.
  - injection H as -> H. f_equal. now apply IH.
Qed.

Lemma str_of_nat_inj (i j : nat) : Py.str_of_nat i = Py.str_of_nat j -> i = j.
Proof.
  unfold Py.str_of_nat. intros H.
  apply (f_equal NilEmpty.uint_of_string) in H. rewrite !NilEmpty.usu in H.
  injection H as H. apply (f_equal Nat.of_uint) in H.
  now rewrite !DecimalNat.Unsigned.of_to in H.
Qed.

(** Two partitions never share a file. *)
Lemma part_path_inj (destination : string) (i j : nat) :
  part_path destination i = part_path destination j -> i = j.
Proof.
  unfold part_path. intros H.
  apply string_app_cancel_l in H. apply (string_app_cancel_l "/part.") in H.
  apply string_app_cancel_r in H. now apply str_of_nat_inj.
Qed.

Lemma read_only_quiet (evs : list event) :
  Forall read_only evs -> writes evs = [] /\ tables evs = [].
Proof.
  induction 1 as [|e evs He _ [IHw IHt]]; [now split|].
  destruct e; simpl in *; try contradiction; now split.
Qed.

Lemma write_file_returned (path data : string) (w w' : world) :
  write_file path data w = (Returned tt, w') ->
  trace w' = (trace w ++ [WriteFile path])%list.
Proof.
  unfold write_file, bind, get_fs, set_fs, emit, raise.
  destruct (os_resolve path) as [p|]; [|discriminate].
  destruct (FS.is_dir p (fs w)); [discriminate|].
  destruct (FS.is_dir (removelast p) (fs w)); [|discriminate].
  intros H. now injection H as <-.
Qed.

Section Partitions.

Context {L : Libraries}.

Lemma read_only_print (line : string) : read_only (Print line).
Proof. exact I. Qed.

Lemma read_only_http (url : string) : read_only (HttpGet url).
Proof. exact I. Qed.

Lemma read_only_read (path : string) : read_only (ReadFile path).
Proof. exact I. Qed.

Lemma print_run (line : string) (w : world) :
  print line w = (Returned tt, World (fs w) (trace w ++ [Print line])).
Proof. reflexivity. Qed.

(** A task that returns has built one table and written one file. *)
Lemma to_parquet_task_returned (records : M (list json)) (path : string)
      (w w' : world) :
  emits read_only records ->
  to_parquet_task records path w = (Returned tt, w') ->
  exists evs,
    trace w' = (trace w ++ evs)%list /\
    writes evs = [path] /\ List.length (tables evs) = 1.
Proof.
  intros He H. unfold to_parquet_task in H.
  apply bind_returned_inv in H as (rs & w1 & E1 & H).
  apply bind_returned_inv in H as ([] & w2 & E2 & H).
  apply bind_returned_inv in H as (df & w3 & E3 & H).
  destruct (He _ _ _ E1) as (evs1 & T1 & F1).
  destruct (read_only_quiet _ F1) as [W1 B1].
  injection E2 as <-.
  assert (w3 = World (fs w1) (trace w1 ++ [BuildTable rs])) as ->.
  { destruct (to_geodataframe rs); [now injection E3 as _ <-|discriminate]. }
  apply write_file_returned in H. cbn [trace] in H.
  exists (evs1 ++ [BuildTable rs; WriteFile path])%list.
  rewrite H, T1, <- !app_assoc. split; [reflexivity|].
  rewrite writes_app, tables_app, W1, B1. now split.
Qed.

Lemma dask_compute_tasks_returned (destination : string) (dfs : list (M (list json))) :
  Forall (emits read_only) dfs ->
  forall i w w',
    dask_compute (map (fun '(i, obj) => to_parquet_task obj (part_path destination i))
                      (enumerate_from i dfs)) w = (Returned tt, w') ->
    exists evs,
      trace w' = (trace w ++ evs)%list /\
      writes evs = map (part_path destination) (seq i (List.length dfs)) /\
      List.length (tables evs) = List.length dfs.
Proof.
  induction 1 as [|r dfs Hr _ IH]; intros i w w' H.
  - injection H as <-. exists []. rewrite app_nil_r. now split.
  - cbn [enumerate_from map dask_compute] in H.
    apply bind_returned_inv in H as ([] & w1 & E1 & H).
    apply (to_parquet_task_returned _ _ _ _ Hr) in E1 as (evs1 & T1 & W1 & B1).
    apply IH in H as (evs2 & T2 & W2 & B2).
    exists (evs1 ++ evs2)%list. rewrite T2, T1, app_assoc. split; [reflexivity|].
    rewrite writes_app, tables_app, W1, W2, length_app, B1, B2. now split.
Qed.

Lemma emits_bag_partitions (b : bag) : Forall (emits read_only) (bag_partitions b).
Proof.
  destruct b as [parts|parts]; simpl; apply Forall_map, Forall_forall; intros part _.
  - apply emits_ret.
  - apply emits_read_features. exact read_only_read.
Qed.

Lemma bag_partitions_length (b : bag) : List.length (bag_partitions b) = bag_size b.
Proof. destruct b; simpl; apply length_map. Qed.

(** With a bag, a run of lines 102-112 that returns has written the
    partitions to [part.0.parquet], [part.1.parquet], ... in order. *)
Lemma write_artifact_bag_returned (destination : string) (l : locals) (b : bag)
      (w w' : world) :
  bag_ l = Some b ->
  write_artifact destination l w = (Returned tt, w') ->
  exists evs,
    trace w' = (trace w ++ evs)%list /\
    writes evs = map (part_path destination) (seq 0 (bag_size b)) /\
    List.length (tables evs) = bag_size b.
Proof.
  intros Hb H. unfold write_artifact in H. rewrite Hb in H.
  rewrite (bind_returned _ _ _ _ _ (print_run _ w)) in H.
  apply bind_returned_inv in H as ([] & w1 & E1 & H).
  unfold tasks, enumerate in E1.
  apply (dask_compute_tasks_returned _ _ (emits_bag_partitions b)) in E1
    as (evs & T & W & B).
  rewrite print_run in H. injection H as <-. cbn [trace] in *.
  rewrite bag_partitions_length in W, B.
  exists ([Print "Initialized for parallel processing"] ++ evs
          ++ [Print "Wrote geoparquet file(s)"])%list.
  rewrite T, <- !app_assoc. split; [reflexivity|].
  rewrite !writes_app, !tables_app. simpl. rewrite !app_nil_r. now split.
Qed.

(** With a partition count above 1, extraction leaves a bag unless it
    leaves [paths] unbound. *)
Lemma returns_extract_partitioned (source : string) (partition : Z) :
  (partition > 1)%Z ->
  returns (fun l => bag_ l <> None \/ (bag_ l = None /\ paths l = None))
          (extract source partition).
Proof.
  intros Hp.
  assert (Hgt : (partition >? 1)%Z = true)
    by (destruct (Z.gtb_spec partition 1); [reflexivity|lia]).
  unfold extract. destruct (is_remote source).
  - unfold from_remote.
    do 5 (apply (returns_bind (fun _ => True)); [apply returns_any|intros ? _]).
    rewrite Hgt.
    apply (returns_bind (fun _ => True)); [apply returns_any|intros ? _].
    apply returns_ret. left. discriminate.
  - apply (returns_bind (fun _ => True)); [apply returns_any|intros n _].
    destruct (os_path_exists source n); [|apply returns_ret; now right].
    unfold from_file_system.
    do 3 (apply (returns_bind (fun _ => True)); [apply returns_any|intros ? _]).
    rewrite Hgt. apply returns_ret. left. discriminate.
Qed.

Lemma link_collection_returned (destination collection : string) (w w' : world) :
  link_collection destination collection w = (Returned tt, w') ->
  exists evs,
    trace w' = (trace w ++ evs)%list /\
    writes evs = (if (0 <? String.length collection)%nat then [collection] else []) /\
    tables evs = [].
Proof.
  unfold link_collection. destruct (0 <? String.length collection)%nat.
  - intros H.
    apply bind_returned_inv in H as (old & w1 & E1 & H).
    apply bind_returned_inv in H as (doc & w2 & E2 & H).
    apply bind_returned_inv in H as (doc' & w3 & E3 & H).
    apply bind_returned_inv in H as ([] & w5 & E5 & H).
    destruct (emits_read_text read_only collection (read_only_read _) _ _ _ E1)
      as (evs1 & T1 & F1).
    destruct (read_only_quiet _ F1) as [W1 B1].
    assert (w2 = w1) as ->
      by (destruct (json_loads old); [now injection E2 as _ <-|discriminate]).
    assert (w3 = w1) as ->
      by (destruct (amend_collection destination collection doc);
          [now injection E3 as _ <-|discriminate]).
    apply write_file_returned in E5. rewrite print_run in H. injection H as <-.
    cbn [trace].
    exists (evs1 ++ [WriteFile collection; Print "Updated STAC Collection"])%list.
    rewrite E5, T1, <- !app_assoc. split; [reflexivity|].
    rewrite writes_app, tables_app, W1, B1. now split.
  - intros H. injection H as <-. exists []. rewrite app_nil_r. now split.
Qed.

(** C8: a run of [create] with a partition count above 1 that returns
    has built one table per partition and written them, in order of
    their zero-based index [i], to [destination/part.i.parquet]; the
    only other file written is the collection document, if one is
    named; and the file of a partition depends on nothing but the
    destination and the index, two indices never giving one file. *)
Theorem create_partitioned_part_files
        (source destination collection : string) (partition : Z) (w w' : world) :
  (partition > 1)%Z ->
  create_command source destination collection partition w = (Returned tt, w') ->
  exists (k : nat) (evs : list event),
    trace w' = (trace w ++ evs)%list /\
    List.length (tables evs) = k /\
    writes evs
    = (map (fun i => (destination ++ "/part." ++ Py.str_of_nat i ++ ".parquet")%string)
           (seq 0 k)
       ++ (if (0 <? String.length collection)%nat then [collection] else []))%list /\
    (forall i j,
        destination ++ "/part." ++ Py.str_of_nat i ++ ".parquet"
        = destination ++ "/part." ++ Py.str_of_nat j ++ ".parquet" -> i = j).
Proof.
  intros Hp H. unfold create_command in H.
  apply bind_returned_inv in H as ([] & w1 & E1 & H).
  apply bind_returned_inv in H as (l & w2 & E2 & H).
  apply bind_returned_inv in H as ([] & w3 & E3 & H).
  destruct (emits_prepare_destination read_only read_only_print _ _ _ _ _ E1)
    as (evs1 & T1 & F1).
  destruct (emits_extract read_only read_only_print read_only_http _ _ _ _ _ E2)
    as (evs2 & T2 & F2).
  destruct (read_only_quiet _ F1) as [W1 B1].
  destruct (read_only_quiet _ F2) as [W2 B2].
  destruct (returns_extract_partitioned source partition Hp _ _ _ E2) as [Hb|[Hb Hn]].
  - destruct (bag_ l) as [b|] eqn:Eb; [|congruence].
    destruct (write_artifact_bag_returned _ _ _ _ _ Eb E3) as (evs3 & T3 & W3 & B3).
    destruct (link_collection_returned _ _ _ _ H) as (evs4 & T4 & W4 & B4).
    exists (bag_size b), (evs1 ++ evs2 ++ evs3 ++ evs4)%list.
    rewrite T4, T3, T2, T1, <- !app_assoc. split; [reflexivity|].
    rewrite !writes_app, !tables_app, W1, W2, W3, W4, B1, B2, B4.
    simpl. rewrite app_nil_r. split; [exact B3|]. split; [reflexivity|].
    exact (part_path_inj destination).
  - unfold write_artifact in E3. rewrite Hb, Hn in E3. discriminate.
Qed.

End Partitions.

Lemma create_partitioned_part_files_witness :
  exists (k : nat) (evs : list event),
    trace (snd (create_command (L := Examples.libs)
                               "https://example.com/items" "out" "collection.json" 2
                               Examples.w0))
    = (trace Examples.w0 ++ evs)%list /\
    List.length (tables evs) = k /\
    writes evs
    = (map (fun i => ("out" ++ "/part." ++ Py.str_of_nat i ++ ".parquet")%string)
           (seq 0 k)
       ++ ["collection.json"])%list /\
    (forall i j,
        "out" ++ "/part." ++ Py.str_of_nat i ++ ".parquet"
        = "out" ++ "/part." ++ Py.str_of_nat j ++ ".parquet" -> i = j).
Proof.
  apply (create_partitioned_part_files (L := Examples.libs)
           "https://example.com/items" "out" "collection.json" 2 Examples.w0).
  - lia.
  - vm_compute. reflexivity.
Defined.

(** ** The collection document *)

Lemma substring_prefix (a b : string) : substring 0 (String.length a) (a ++ b) = a.
Proof. induction a as [|c a IH]; simpl; [now destruct b|now rewrite IH]. Qed.

(** Writing from offset 0 and truncating where the writing stopped
    leaves exactly what was written, however long the old text was. *)
Lemma truncate_overwrite (old new : string) :
  truncate (String.length new) (overwrite old new) = new.
Proof. unfold truncate, overwrite. apply substring_prefix. Qed.

Section Collection.

Context {L : Libraries}.

Lemma amend_collection_object (destination collection : string)
      (d : list (string * json)) :
  (Dict.get "assets" d = None \/ exists a, Dict.get "assets" d = Some (JObj a)) ->
  exists d' a',
    amend_collection destination collection (JObj d) = Returned (JObj d') /\
    Dict.get "assets" d' = Some (JObj a') /\
    Dict.get "geoparquet-items" a'
    = Some (geoparquet_asset destination (os_path_abspath (os_path_dirname collection))) /\
    (forall k, k <> "geoparquet-items" ->
               Dict.get k a' = match Dict.get "assets" d with
                               | Some (JObj a) => Dict.get k a
                               | _ => None
                               end) /\
    (forall k, k <> "assets" -> Dict.get k d' = Dict.get k d) /\
    Dict.keys d' = if Dict.mem "assets" d then Dict.keys d
                   else (Dict.keys d ++ ["assets"])%list.
Proof.
  intros [Hnone|(a & Hsome)]; unfold amend_collection, Dict.mem.
  - rewrite Hnone. cbn [negb]. rewrite dict_get_set_same.
    eexists; eexists. split; [reflexivity|].
    split; [apply dict_get_set_same|]. split; [apply dict_get_set_same|].
    split; [|split].
    + intros k Hk. now rewrite dict_get_set_other.
    + intros k Hk. now rewrite !dict_get_set_other.
    + rewrite dict_keys_set. unfold Dict.mem. rewrite dict_get_set_same.
      rewrite dict_keys_set. unfold Dict.mem. now rewrite Hnone.
  - rewrite Hsome. cbn [negb]. rewrite Hsome.
    eexists; eexists. split; [reflexivity|].
    split; [apply dict_get_set_same|]. split; [apply dict_get_set_same|].
    split; [|split].
    + intros k Hk. now rewrite dict_get_set_other.
    + intros k Hk. now rewrite dict_get_set_other.
    + rewrite dict_keys_set. unfold Dict.mem. now rewrite Hsome.
Qed.

(** C9: when a collection path is given and names a file that parses
    to an object whose [assets], if present, is an object, the linking
    step returns and leaves at that path exactly the serialisation of
    the amended document (nothing of a longer earlier text remains): its
    [assets] holds under [geoparquet-items] the asset with the relative
    href, the media type, the role and the title; every other key of
    [assets] and of the document keeps its value, and the keys keep
    their order, a new [assets] going last.  With the empty collection
    path the step does nothing. *)
Theorem link_collection_amends
        (destination collection old : string) (d : list (string * json)) (w : world) :
  collection <> "" ->
  FS.is_dir [] (fs w) = true ->
  FS.lookup (FS.components collection) (fs w) = Some (File old) ->
  json_loads old = Some (JObj d) ->
  (Dict.get "assets" d = None \/ exists a, Dict.get "assets" d = Some (JObj a)) ->
  (exists (d' a' : list (string * json)) (w' : world),
      link_collection destination collection w = (Returned tt, w') /\
      FS.lookup (FS.components collection) (fs w')
      = Some (File (json_dumps (JObj d'))) /\
      Dict.get "assets" d' = Some (JObj a') /\
      Dict.get "geoparquet-items" a'
      = Some (JObj [ ("href", JStr (os_path_relpath
                                      destination
                                      (os_path_abspath (os_path_dirname collection))));
                     ("type", JStr "application/x-parquet");
                     ("roles", JArr [JStr "stac-items"]);
                     ("title", JStr "GeoParquet STAC Items") ]) /\
      (forall k, k <> "geoparquet-items" ->
                 Dict.get k a' = match Dict.get "assets" d with
                                 | Some (JObj a) => Dict.get k a
                                 | _ => None
                                 end) /\
      (forall k, k <> "assets" -> Dict.get k d' = Dict.get k d) /\
      Dict.keys d' = (if Dict.mem "assets" d then Dict.keys d
                      else (Dict.keys d ++ ["assets"])%list))
  /\
  (forall w0, link_collection destination "" w0 = (Returned tt, w0)).
Proof.
  intros Hne Hroot Hfile Hload Hassets. split; [|reflexivity].
  destruct (amend_collection_object destination collection d Hassets)
    as (d' & a' & Hamend & Ha & Hg & Hka & Hkd & Hkeys).
  set (p := FS.components collection) in *.
  assert (Hres : os_resolve collection = Some p).
  { unfold os_resolve. destruct (String.eqb_spec collection ""); [contradiction|reflexivity]. }
  assert (Hlen : (0 <? String.length collection)%nat = true).
  { destruct collection; [contradiction|reflexivity]. }
  assert (Hp : p <> []).
  { intros E. rewrite E in Hfile. simpl in Hfile. injection Hfile as Hfs.
    unfold FS.is_dir in Hroot. simpl in Hroot. now rewrite Hfs in Hroot. }
  assert (Hparent : FS.is_dir (removelast p) (fs w) = true)
    by (eapply lookup_parent; eauto).
  assert (Hnd : FS.is_dir p (fs w) = false)
    by (unfold FS.is_dir; now rewrite Hfile).
  exists d', a',
    (World (FS.put p (Some (File (json_dumps (JObj d')))) (fs w))
           (trace w ++ [ReadFile collection; WriteFile collection;
                        Print "Updated STAC Collection"]))%list.
  split; [|split; [|repeat split; assumption]].
  - unfold link_collection. rewrite Hlen.
    rewrite (bind_returned _ _ _ _ _ (read_text_file _ _ _ _ Hres Hfile)).
    rewrite Hload. cbn [lift]. rewrite (bind_returned _ _ _ _ (JObj d) eq_refl).
    rewrite Hamend. cbn [run]. rewrite (bind_returned _ _ _ _ (JObj d') eq_refl).
    rewrite truncate_overwrite.
    unfold write_file, bind, get_fs, set_fs, emit, print, emit. cbn [fs trace].
    rewrite Hres, Hnd, Hparent. cbn [fs trace].
    now rewrite <- !app_assoc.
  - cbn [fs]. now apply lookup_put_some.
Qed.

End Collection.

Lemma link_collection_amends_witness :
  exists (d' a' : list (string * json)) (w' : world),
    link_collection (L := Examples.libs) "out/items.parquet" "collection.json" Examples.w0
    = (Returned tt, w') /\
    FS.lookup ["collection.json"] (fs w') = Some (File (Sample.dumps (JObj d'))) /\
    Dict.get "assets" d' = Some (JObj a') /\
    Dict.get "geoparquet-items" a'
    = Some (JObj [ ("href", JStr "out/items.parquet");
                   ("type", JStr "application/x-parquet");
                   ("roles", JArr [JStr "stac-items"]);
                   ("title", JStr "GeoParquet STAC Items") ]) /\
    Dict.keys d' = ["id"; "links"; "assets"].
Proof.
  destruct (proj1 (link_collection_amends (L := Examples.libs)
                     "out/items.parquet" "collection.json"
                     (Sample.dumps (JObj [("id", JStr "c"); ("links", JArr [])]))
                     [("id", JStr "c"); ("links", JArr [])] Examples.w0
                     ltac:(discriminate) eq_refl eq_refl
                     ltac:(vm_compute; reflexivity) (or_introl eq_refl)))
    as (d' & a' & w' & Hrun & Hfile & Ha & Hg & _ & _ & Hkeys).
  exists d', a', w'.
  split; [exact Hrun|]. split; [exact Hfile|]. split; [exact Ha|].
  split; [exact Hg|exact Hkeys].
Defined.

(** ** The no-items exception and the partitioned runs *)

Lemma no_exception_ret {A : Type} (a : A) : no_exception (ret a).
Proof. intros w w' msg H. discriminate. Qed.

Lemma no_exception_bind_returns {A B : Type} (Q : A -> Prop) (c : M A) (k : A -> M B) :
  no_exception c -> returns Q c -> (forall a, Q a -> no_exception (k a)) ->
  no_exception (bind c k).
Proof.
  intros Hc HQ Hk w w' msg H. unfold bind in H.
  destruct (c w) as [[a|e] w1] eqn:E.
  - exact (Hk a (HQ _ _ _ E) _ _ _ H).
  - injection H as -> ->. exact (Hc _ _ _ E).
Qed.

Lemma no_exception_bind {A B : Type} (c : M A) (k : A -> M B) :
  no_exception c -> (forall a, no_exception (k a)) -> no_exception (bind c k).
Proof.
  intros Hc Hk. apply (no_exception_bind_returns (fun _ => True)); auto.
  apply returns_any.
Qed.

Lemma no_exception_lift {A : Type} (o : option A) (e : exn) :
  (forall msg, e <> Exception msg) -> no_exception (lift o e).
Proof.
  intros He w w' msg H. destruct o; [discriminate|].
  injection H as H _. exact (He _ H).
Qed.

Lemma no_exception_run {A : Type} (o : outcome A) :
  (forall msg, o <> Raised (Exception msg)) -> no_exception (run o).
Proof.
  intros Ho w w' msg H. destruct o as [a|e]; [discriminate|].
  injection H as H _. apply (Ho msg). now rewrite H.
Qed.

Lemma no_exception_emit (e : event) : no_exception (emit e).
Proof. intros w w' msg H. discriminate. Qed.

Lemma no_exception_read_text (path : string) : no_exception (read_text path).
Proof.
  intros w w' msg. unfold read_text, bind, get_fs.
  destruct (os_resolve path) as [p|]; [|discriminate].
  destruct (FS.lookup p (fs w)) as [[data|es]|]; discriminate.
Qed.

Lemma no_exception_write_file (path data : string) : no_exception (write_file path data).
Proof.
  intros w w' msg. unfold write_file, bind, get_fs.
  destruct (os_resolve path) as [p|]; [|discriminate].
  destruct (FS.is_dir p (fs w)); [discriminate|].
  destruct (FS.is_dir (removelast p) (fs w)); discriminate.
Qed.

Lemma no_exception_mkdir (path : string) : no_exception (mkdir path).
Proof.
  intros w w' msg. unfold mkdir, bind, get_fs.
  destruct (FS.exists_ (FS.components path) (fs w)); [discriminate|].
  destruct (FS.is_dir (removelast (FS.components path)) (fs w)); discriminate.
Qed.

Lemma no_exception_dask_compute (ts : list (M unit)) :
  Forall no_exception ts -> no_exception (dask_compute ts).
Proof.
  induction 1 as [|t ts Ht _ IH]; simpl; [apply no_exception_ret|].
  apply no_exception_bind; auto.
Qed.

Lemma is_feature_no_exception (item : json) (msg : string) :
  is_feature item <> Raised (Exception msg).
Proof.
  unfold is_feature, py_getitem. destruct item; try discriminate.
  destruct (Dict.get "type" members); discriminate.
Qed.

Section NoItemsCheck.

Context {L : Libraries}.

Lemma no_exception_prepare_destination (destination : string) (partition : Z) :
  no_exception (prepare_destination destination partition).
Proof.
  unfold prepare_destination.
  apply no_exception_bind; [intros w w' msg H; discriminate|intros _].
  destruct (partition >? 1)%Z; [|apply no_exception_ret].
  apply no_exception_bind; [apply no_exception_mkdir|intros _; apply no_exception_emit].
Qed.

Lemma no_exception_extract (source : string) (partition : Z) :
  no_exception (extract source partition).
Proof.
  unfold extract. destruct (is_remote source).
  - unfold from_remote.
    apply no_exception_bind; [apply no_exception_emit|intros _].
    apply no_exception_bind; [apply no_exception_emit|intros _].
    apply no_exception_bind; [apply no_exception_lift; discriminate|intros body].
    apply no_exception_bind; [apply no_exception_lift; discriminate|intros doc].
    apply no_exception_bind;
      [apply no_exception_run; destruct doc; discriminate|intros features].
    destruct (partition >? 1)%Z; [|apply no_exception_ret].
    apply no_exception_bind; [|intros seq; apply no_exception_ret].
    apply no_exception_run. intros msg.
    destruct features; try discriminate.
  - apply no_exception_bind; [intros w w' msg H; discriminate|intros n].
    destruct (os_path_exists source n); [|apply no_exception_ret].
    unfold from_file_system.
    apply no_exception_bind; [apply no_exception_emit|intros _].
    apply no_exception_bind; [intros w w' msg H; discriminate|intros n'].
    apply no_exception_bind; [apply no_exception_emit|intros _].
    destruct (partition >? 1)%Z; apply no_exception_ret.
Qed.

Lemma no_exception_read_features (files : list string) :
  no_exception (read_features files).
Proof.
  induction files as [|file rest IH]; simpl; [apply no_exception_ret|].
  apply no_exception_bind; [apply no_exception_read_text|intros text].
  apply no_exception_bind; [apply no_exception_lift; discriminate|intros item].
  apply no_exception_bind;
    [apply no_exception_run; intros msg; apply is_feature_no_exception|intros keep].
  apply no_exception_bind; [exact IH|intros more; apply no_exception_ret].
Qed.

Lemma no_exception_tasks (destination : string) (b : bag) :
  Forall no_exception (tasks destination (bag_partitions b)).
Proof.
  assert (Hparts : Forall no_exception (bag_partitions b)).
  { destruct b as [parts|parts]; simpl; apply Forall_map, Forall_forall; intros part _.
    - apply no_exception_ret.
    - apply no_exception_read_features. }
  unfold tasks, enumerate. generalize 0.
  induction Hparts as [|r dfs Hr _ IH]; intros i; simpl; constructor; [|apply IH].
  unfold to_parquet_task.
  apply no_exception_bind; [exact Hr|intros rs].
  apply no_exception_bind; [apply no_exception_emit|intros _].
  apply no_exception_bind; [apply no_exception_lift; discriminate|intros df].
  apply no_exception_write_file.
Qed.

Lemma no_exception_link_collection (destination collection : string) :
  no_exception (link_collection destination collection).
Proof.
  unfold link_collection.
  destruct (0 <? String.length collection)%nat; [|apply no_exception_ret].
  apply no_exception_bind; [apply no_exception_read_text|intros old].
  apply no_exception_bind; [apply no_exception_lift; discriminate|intros doc].
  apply no_exception_bind; [|intros doc'].
  - apply no_exception_run. intros msg. unfold amend_collection.
    destruct doc; try discriminate.
    destruct (Dict.get "assets" _) as [[]|]; discriminate.
  - apply no_exception_bind; [apply no_exception_write_file|intros _].
    apply no_exception_emit.
Qed.

(** X11: with a partition count above 1 no run of [create] ends with the
    no-items exception, whatever the source holds and whatever the
    libraries do: the test of lines 121-131 is never reached. *)
Lemma create_partitioned_never_aborts
      (source destination collection : string) (partition : Z) (w w' : world) :
  (partition > 1)%Z ->
  create_command source destination collection partition w
  <> (Raised (Exception "Aborting, no items available"), w').
Proof.
  intros Hp.
  assert (H : no_exception (create_command source destination collection partition)).
  { unfold create_command.
    apply no_exception_bind; [apply no_exception_prepare_destination|intros _].
    apply (no_exception_bind_returns
             (fun l => bag_ l <> None \/ (bag_ l = None /\ paths l = None))).
    - apply no_exception_extract.
    - now apply returns_extract_partitioned.
    - intros l Hl.
      apply no_exception_bind; [|intros _; apply no_exception_link_collection].
      unfold write_artifact. destruct Hl as [Hb|[Hb Hn]].
      + destruct (bag_ l) as [b|]; [|congruence].
        apply no_exception_bind; [apply no_exception_emit|intros _].
        apply no_exception_bind; [|intros _; apply no_exception_emit].
        apply no_exception_dask_compute, no_exception_tasks.
      + rewrite Hb, Hn. intros w0 w0' msg H. discriminate. }
  apply H.
Qed.

End NoItemsCheck.

(** ** The remote branch hands the features on as they are *)

Section RemoteFeatures.

Context {L : Libraries}.

Lemma dask_compute_items_returned (destination : string) (parts : list (list json)) :
  forall i w w',
    dask_compute (map (fun '(i, obj) => to_parquet_task obj (part_path destination i))
                      (enumerate_from i (map ret parts))) w = (Returned tt, w') ->
    exists evs, trace w' = (trace w ++ evs)%list /\ tables evs = parts.
Proof.
  induction parts as [|part parts IH]; intros i w w' H.
  - injection H as <-. exists []. now rewrite app_nil_r.
  - cbn [enumerate_from map dask_compute] in H.
    apply bind_returned_inv in H as ([] & w1 & E1 & H).
    unfold to_parquet_task in E1.
    rewrite (bind_returned _ _ _ _ part eq_refl) in E1.
    apply bind_returned_inv in E1 as ([] & w2 & E2 & E1).
    apply bind_returned_inv in E1 as (df & w3 & E3 & E1).
    injection E2 as <-.
    assert (w3 = World (fs w) (trace w ++ [BuildTable part])) as ->.
    { destruct (to_geodataframe part); [now injection E3 as _ <-|discriminate]. }
    apply write_file_returned in E1. cbn [trace] in E1.
    apply IH in H as (evs & T & B).
    exists ([BuildTable part; WriteFile (part_path destination i)] ++ evs)%list.
    rewrite T, E1, <- !app_assoc. split; [reflexivity|].
    simpl. now rewrite B.
Qed.

(** X12: for a remote source with a partition count above 1, a run that
    returns has built its tables from the partitions of the [features]
    array itself: no record is tested or dropped. *)
Lemma create_remote_builds_all_features
      (source destination collection body : string) (partition : Z)
      (d : list (string * json)) (features : list json) (w w' : world) :
  is_remote source = true ->
  (partition > 1)%Z ->
  requests_get source = Some body ->
  json_loads body = Some (JObj d) ->
  Dict.get "features" d = Some (JArr features) ->
  create_command source destination collection partition w = (Returned tt, w') ->
  exists evs,
    trace w' = (trace w ++ evs)%list /\
    tables evs = from_sequence json features partition.
Proof.
  intros Hr Hp Hget Hload Hfeat H.
  assert (Hgt : (partition >? 1)%Z = true)
    by (destruct (Z.gtb_spec partition 1); [reflexivity|lia]).
  unfold create_command in H.
  apply bind_returned_inv in H as ([] & w1 & E1 & H).
  apply bind_returned_inv in H as (l & w2 & E2 & H).
  apply bind_returned_inv in H as ([] & w3 & E3 & H).
  destruct (emits_prepare_destination read_only read_only_print _ _ _ _ _ E1)
    as (evs1 & T1 & F1).
  destruct (read_only_quiet _ F1) as [_ B1].
  assert (El : l = Locals (JArr features)
                          (Some (BagOfItems (from_sequence json features partition)))
                          None
               /\ w2 = World (fs w1)
                             (trace w1 ++ [Print "Requesting remote source";
                                           HttpGet source])).
  { unfold extract, from_remote in E2. rewrite Hr in E2.
    unfold bind, print, emit, lift, run, ret in E2. cbn [fs trace] in E2.
    rewrite Hget, Hload in E2. cbn [py_get] in E2. rewrite Hfeat, Hgt in E2.
    cbn [py_list] in E2. injection E2 as <- <-.
    now rewrite <- app_assoc. }
  destruct El as [-> ->].
  unfold write_artifact in E3. cbn [bag_] in E3.
  rewrite (bind_returned _ _ _ _ _ (print_run _ _)) in E3.
  apply bind_returned_inv in E3 as ([] & w4 & E4 & E3).
  unfold tasks, enumerate, bag_partitions in E4.
  apply dask_compute_items_returned in E4 as (evs3 & T3 & B3).
  rewrite print_run in E3. injection E3 as <-.
  destruct (link_collection_returned _ _ _ _ H) as (evs4 & T4 & _ & B4).
  cbn [fs trace] in *.
  exists (evs1 ++ [Print "Requesting remote source"; HttpGet source;
                   Print "Initialized for parallel processing"]
          ++ evs3 ++ [Print "Wrote geoparquet file(s)"] ++ evs4)%list.
  rewrite T4, T3, T1, <- !app_assoc. split; [reflexivity|].
  rewrite !tables_app, B1, B3, B4. simpl. now rewrite app_nil_r.
Qed.

End RemoteFeatures.

(** * Further properties of the two commands *)

(** ** The destination before the run *)

Lemma dict_get_del_other {V : Type} (k k0 : string) (d : list (string * V)) :
  k0 <> k -> Dict.get k0 (Dict.del k d) = Dict.get k0 d.
Proof.
  intros Hne. induction d as [|[k' v'] d IH]; simpl; [reflexivity|].
  destruct (String.eqb_spec k' k) as [->|Hk]; simpl.
  - destruct (String.eqb_spec k k0); [congruence|exact IH].
  - destruct (String.eqb k' k0); [reflexivity|exact IH].
Qed.

(** Binding or unbinding a path leaves every path that parts ways with
    it as it was. *)
Lemma lookup_put_diverge (p q : list string) (v : option node) (n : node) :
  FS.diverge p q -> FS.lookup q (FS.put p v n) = FS.lookup q n.
Proof.
  intros (stem & a & b & p' & q' & -> & -> & Hab).
  revert n. induction stem as [|c stem IH]; intros n.
  - rewrite !app_nil_l. destruct n as [data|es]; [reflexivity|].
    cbn [FS.put]. destruct p' as [|c' p''].
    + destruct v as [m|]; cbn [FS.lookup].
      * rewrite dict_get_set_other; [reflexivity|congruence].
      * rewrite dict_get_del_other; [reflexivity|congruence].
    + destruct (Dict.get a es) as [m|]; [|reflexivity].
      cbn [FS.lookup]. rewrite dict_get_set_other; [reflexivity|congruence].
  - rewrite <- !app_comm_cons. destruct n as [data|es]; [reflexivity|].
    cbn [FS.put]. destruct (stem ++ a :: p')%list as [|c' tail] eqn:E.
    + destruct stem; discriminate.
    + destruct (Dict.get c es) as [m|] eqn:Ec; [|reflexivity].
      cbn [FS.lookup]. rewrite dict_get_set_same, Ec. apply IH.
Qed.

Lemma cleared_lookup_none (destination : string) (n : node) :
  FS.components destination <> [] ->
  FS.lookup (FS.components destination) (cleared destination n) = None.
Proof.
  intros Hp. unfold cleared.
  destruct (FS.components destination) as [|c p] eqn:Ep; [congruence|].
  destruct (FS.is_dir (c :: p) n) eqn:Ed.
  - apply lookup_put_none. discriminate.
  - unfold FS.unlink. destruct (FS.is_file (c :: p) n) eqn:Ef.
    + apply lookup_put_none. discriminate.
    + unfold FS.is_dir in Ed. unfold FS.is_file in Ef.
      destruct (FS.lookup (c :: p) n) as [[data|es]|]; congruence.
Qed.

(** X1: clearing the destination (lines 57-61) leaves whatever lies on
    a path that parts ways with the destination as it was, and clearing
    a second time changes nothing more. *)
Theorem clearing_is_local (destination : string) (n : node) (q : list string) :
  FS.diverge (FS.components destination) q ->
  FS.lookup q (cleared destination n) = FS.lookup q n /\
  cleared destination (cleared destination n) = cleared destination n.
Proof.
  intros Hq. split.
  - unfold cleared, FS.rmtree, FS.unlink.
    destruct (FS.components destination) as [|c p] eqn:Ep.
    + destruct Hq as (stem & a & b & p' & q' & E & _). destruct stem; discriminate.
    + destruct (FS.is_dir (c :: p) n); [now apply lookup_put_diverge|].
      destruct (FS.is_file (c :: p) n); [now apply lookup_put_diverge|reflexivity].
  - destruct (FS.components destination) as [|c p] eqn:Ep.
    + unfold cleared. rewrite Ep. unfold FS.rmtree, FS.unlink, FS.is_dir, FS.is_file.
      cbn [FS.lookup FS.put]. destruct n as [data|es]; reflexivity.
    + assert (Hnone : FS.lookup (c :: p) (cleared destination n) = None).
      { rewrite <- Ep. apply cleared_lookup_none. rewrite Ep. discriminate. }
      unfold cleared at 1. rewrite Ep. unfold FS.is_dir, FS.unlink, FS.is_file.
      now rewrite Hnone.
Qed.

Lemma clearing_is_local_witness :
  FS.lookup ["stac"; "item1.json"] (cleared "old.parquet" Examples.tree)
  = FS.lookup ["stac"; "item1.json"] Examples.tree /\
  cleared "old.parquet" (cleared "old.parquet" Examples.tree)
  = cleared "old.parquet" Examples.tree.
Proof.
  apply (clearing_is_local "old.parquet" Examples.tree ["stac"; "item1.json"]).
  exists [], "old.parquet", "stac", [], ["item1.json"].
  repeat split. discriminate.
Defined.

Section FreshDirectory.

Context {L : Libraries}.


End FreshDirectory.


(** ** convert: all or nothing *)

Lemma list_remove_some_in (x : string) (l l' : list string) :
  Py.list_remove x l = Some l' -> In x l.
Proof.
  revert l'. induction l as [|y l IH]; simpl; intros l' H; [discriminate|].
  destruct (String.eqb_spec y x) as [->|Hne]; [now left|].
  destruct (Py.list_remove x l) as [r|]; [|discriminate]. right. eauto.
Qed.

Lemma remove_columns_repeated (to_exclude names : list string) :
  NoDup names -> ~ NoDup (map Py.strip to_exclude) ->
  remove_columns names to_exclude = None.
Proof.
  revert names. induction to_exclude as [|c rest IH]; intros names Hn Hdup.
  - exfalso. apply Hdup. constructor.
  - cbn [remove_columns].
    destruct (Py.list_remove (Py.strip c) names) as [names'|] eqn:E; [|reflexivity].
    pose proof (list_remove_some_in _ _ _ E) as Hin.
    rewrite (list_remove_nodup _ _ Hn Hin) in E. injection E as <-.
    destruct (in_dec string_dec (Py.strip c) (map Py.strip rest)) as [Hrep|Hfresh].
    + apply in_map_iff in Hrep as (col & Hcol & Hrest).
      apply (remove_columns_absent _ _ col Hrest).
      rewrite Hcol. intros H. apply filter_In in H as [_ H].
      now rewrite String.eqb_refl in H.
    + apply IH; [now apply NoDup_filter|].
      intros H. apply Hdup. cbn [map]. now constructor.
Qed.

Section ConvertRuns.

Context {L : Libraries}.




(** X4: when the schema names no column twice, an exclusion list that
    names one column twice (after trimming) makes [convert] raise
    [ValueError] and export nothing: the second removal finds the
    column already gone. *)
Theorem convert_repeated_entry_raises
        (source destination format : string) (exclude : option string)
        (w : world) (p : list string) (src : node) (names : list string) :
  os_resolve source = Some p ->
  FS.lookup p (fs w) = Some src ->
  read_schema_names src = Some names ->
  NoDup names ->
  ~ NoDup (map Py.strip (resolve_exclude exclude)) ->
  convert_command source destination format exclude w = (Raised ValueError, w).
Proof.
  intros Hp Hs Hn Hnd Hrep.
  rewrite (convert_command_present _ _ _ _ _ _ _ Hp Hs).
  assert (Hne : resolve_exclude exclude <> []).
  { intros E. apply Hrep. rewrite E. constructor. }
  unfold bind. rewrite (select_columns_nonempty _ _ _ _ Hne Hn).
  now rewrite (remove_columns_repeated _ _ Hnd Hrep).
Qed.

End ConvertRuns.


Lemma convert_repeated_entry_raises_witness :
  convert_command (L := Examples.libs) "in.parquet" "out.gpkg" "gpkg"
                  (Some "assets, assets") Examples.w0
  = (Raised ValueError, Examples.w0).
Proof.
  apply (convert_repeated_entry_raises (L := Examples.libs)
           "in.parquet" "out.gpkg" "gpkg" (Some "assets, assets") Examples.w0
           ["in.parquet"] _ ["id"; "stac_version"; "type"; "assets"; "geometry"]
           eq_refl eq_refl eq_refl).
  - repeat constructor; simpl; intuition discriminate.
  - intros H. vm_compute in H. inversion H as [|? ? Hin _]. apply Hin. now left.
Defined.

(** ** The collection document, again *)

Lemma dict_set_set_same {V : Type} (k : string) (v v0 : V) (d : list (string * V)) :
  Dict.set k v (Dict.set k v0 d) = Dict.set k v d.
Proof.
  induction d as [|[k' v'] d IH]; simpl.
  - now rewrite String.eqb_refl.
  - destruct (String.eqb k' k) eqn:E; simpl; rewrite E; [reflexivity|now rewrite IH].
Qed.

Section CollectionAgain.

Context {L : Libraries}.

(** X5: amending a document that has already been amended for the same
    destination and collection path gives the same document again: a
    second run does not add a second asset or move a key. *)
Theorem amend_collection_idempotent
        (destination collection : string) (doc doc' : json) :
  amend_collection destination collection doc = Returned doc' ->
  amend_collection destination collection doc' = Returned doc'.
Proof.
  unfold amend_collection. destruct doc as [| | | | |d]; try discriminate.
  set (asset := geoparquet_asset destination
                                 (os_path_abspath (os_path_dirname collection))).
  set (members := if negb (Dict.mem "assets" d)
                  then Dict.set "assets" (JObj []) d else d).
  destruct (Dict.get "assets" members) as [[| | | | |a]|]; try discriminate.
  intros [= <-]. unfold Dict.mem. rewrite dict_get_set_same. cbn [negb].
  rewrite dict_get_set_same. now rewrite !dict_set_set_same.
Qed.


End CollectionAgain.

Lemma amend_collection_idempotent_witness :
  amend_collection (L := Examples.libs) "out.parquet" "collection.json"
    (JObj [("id", JStr "c");
           ("assets",
            JObj [("thumbnail", JStr "t.png");
                  ("geoparquet-items",
                   geoparquet_asset (L := Examples.libs) "out.parquet" "/")])])
  = Returned (JObj [("id", JStr "c");
                    ("assets",
                     JObj [("thumbnail", JStr "t.png");
                           ("geoparquet-items",
                            geoparquet_asset (L := Examples.libs) "out.parquet" "/")])]).
Proof.
  apply (amend_collection_idempotent (L := Examples.libs) "out.parquet" "collection.json"
           (JObj [("id", JStr "c"); ("assets", JObj [("thumbnail", JStr "t.png")])])).
  vm_compute. reflexivity.
Defined.


(** ** The single batch *)

Section SingleBatch.

Context {L : Libraries}.

Lemma load_items_all (paths : list string) (docs : list json) :
  forall (acc : list json) (w : world),
    Forall2 (holds_record (fs w)) paths docs ->
    Forall typed docs ->
    load_items paths (JArr acc) w
    = (Returned (JArr (acc ++ feature_records docs)),
       World (fs w) (trace w ++ map ReadFile paths)).
Proof.
  revert docs. induction paths as [|path paths IH]; intros docs acc w H2 Ht.
  - inversion H2; subst. simpl. unfold ret. destruct w; simpl.
    now rewrite !app_nil_r.
  - inversion H2 as [|? item ? docs' (p & text & Hp & Hl & Hj) Hrest]; subst.
    inversion Ht as [|? ? [keep Hk] Ht']; subst.
    cbn [load_items].
    rewrite (bind_returned _ _ _ _ _ (read_text_file _ _ _ _ Hp Hl)).
    rewrite Hj. cbn [lift]. rewrite (bind_returned _ _ _ _ item eq_refl).
    rewrite Hk. cbn [run]. rewrite (bind_returned _ _ _ _ keep eq_refl).
    unfold feature_records. cbn [filter]. rewrite Hk.
    destruct keep.
    + cbn [py_append run]. rewrite (bind_returned _ _ _ _ (JArr (acc ++ [item])) eq_refl).
      rewrite (IH docs' (acc ++ [item])%list (World (fs w) _) Hrest Ht').
      cbn [fs trace map]. now rewrite <- !app_assoc.
    + rewrite (bind_returned _ _ _ _ (JArr acc) eq_refl).
      rewrite (IH docs' acc (World (fs w) _) Hrest Ht').
      cbn [fs trace map]. now rewrite <- !app_assoc.
Qed.

(** The loop stops at the first file that cannot be read as a record
    with a type, with that file's exception. *)
Lemma load_items_stops (good : list string) (docs : list json) (bad : string)
      (rest : list string) (acc : list json) (e : exn) (w : world) :
  Forall2 (holds_record (fs w)) good docs ->
  Forall typed docs ->
  ((exists item, holds_record (fs w) bad item /\ is_feature item = Raised e) \/
   (e = JSONDecodeError /\
    exists p text, os_resolve bad = Some p /\ FS.lookup p (fs w) = Some (File text) /\
                   json_loads text = None)) ->
  load_items (good ++ bad :: rest) (JArr acc) w
  = (Raised e, World (fs w) (trace w ++ map ReadFile good ++ [ReadFile bad])).
Proof.
  revert docs acc w. induction good as [|path good IH]; intros docs acc w H2 Ht Hbad.
  - rewrite app_nil_l. cbn [load_items map]. rewrite app_nil_l.
    destruct Hbad as [(item & (p & text & Hp & Hl & Hj) & Hf)|(-> & p & text & Hp & Hl & Hj)];
      rewrite (bind_returned _ _ _ _ _ (read_text_file _ _ _ _ Hp Hl)), Hj; cbn [lift].
    + rewrite (bind_returned _ _ _ _ item eq_refl). now rewrite Hf.
    + reflexivity.
  - inversion H2 as [|? item ? docs' (p & text & Hp & Hl & Hj) Hrest]; subst.
    inversion Ht as [|? ? [keep Hk] Ht']; subst.
    rewrite <- app_comm_cons. cbn [load_items].
    rewrite (bind_returned _ _ _ _ _ (read_text_file _ _ _ _ Hp Hl)).
    rewrite Hj. cbn [lift]. rewrite (bind_returned _ _ _ _ item eq_refl).
    rewrite Hk. cbn [run]. rewrite (bind_returned _ _ _ _ keep eq_refl).
    destruct keep.
    + cbn [py_append run]. rewrite (bind_returned _ _ _ _ (JArr (acc ++ [item])) eq_refl).
      rewrite (IH docs' (acc ++ [item])%list (World (fs w) _) Hrest Ht' Hbad).
      cbn [fs trace map]. now rewrite <- !app_assoc.
    + rewrite (bind_returned _ _ _ _ (JArr acc) eq_refl).
      rewrite (IH docs' acc (World (fs w) _) Hrest Ht' Hbad).
      cbn [fs trace map]. now rewrite <- !app_assoc.
Qed.

Lemma writes_read_events (good : list string) (bad : string) :
  writes (map ReadFile good ++ [ReadFile bad]) = [] /\
  tables (map ReadFile good ++ [ReadFile bad]) = [].
Proof.
  rewrite writes_app, tables_app, writes_map_read, tables_map_read. now split.
Qed.

(** X7: with a partition count of at most 1 and a source on the file
    system whose collected files all parse to records with a type, at
    least one of them a Feature, [create] builds one table from the
    Features in the order the files were collected and writes it to the
    destination, which then holds that table and nothing of what was
    there before; what remains of the run is the linking step, started
    in the world with the table written. *)
Theorem create_single_batch_writes_features
        (source destination collection : string) (partition : Z) (w : world)
        (docs : list json) (df : DataFrame) (p : list string) :
  (partition <= 1)%Z ->
  is_remote source = false ->
  os_path_exists source (cleared destination (fs w)) = true ->
  Forall2 (holds_record (cleared destination (fs w)))
          (collect_paths source (cleared destination (fs w))) docs ->
  Forall typed docs ->
  feature_records docs <> [] ->
  to_geodataframe (feature_records docs) = Some df ->
  os_resolve destination = Some p ->
  p <> [] ->
  FS.is_dir (removelast p) (cleared destination (fs w)) = true ->
  exists evs w2,
    create_command source destination collection partition w
    = link_collection destination collection w2 /\
    fs w2 = FS.put p (Some (File (to_parquet df))) (cleared destination (fs w)) /\
    FS.lookup p (fs w2) = Some (File (to_parquet df)) /\
    trace w2 = (trace w ++ evs)%list /\
    tables evs = [feature_records docs] /\
    writes evs = [destination].
Proof.
  intros Hp Hr Hex H2 Ht Hne Hdf Hres Hpne Hparent.
  set (n := cleared destination (fs w)) in *.
  set (ps := collect_paths source n) in *.
  assert (Hcomp : p = FS.components destination).
  { unfold os_resolve in Hres. destruct (String.eqb destination ""); congruence. }
  assert (Hnd : FS.is_dir p n = false).
  { unfold FS.is_dir. subst p. unfold n. now rewrite cleared_lookup_none. }
  pose (num := List.length (feature_records docs)).
  set (evs := ([Print "Reading from file system";
                Print ("Found " ++ Py.str_of_nat (List.length ps)
                       ++ " potential STAC Items")]
               ++ map ReadFile ps
               ++ [Print ("Loaded " ++ Py.str_of_nat num ++ " actual STAC Items");
                   BuildTable (feature_records docs); Print "Created dataframe";
                   WriteFile destination; Print "Wrote geoparquet file"])%list).
  exists evs, (World (FS.put p (Some (File (to_parquet df))) n) (trace w ++ evs)).
  split; [|split; [|split; [|split; [|split]]]].
  - unfold create_command.
    rewrite (bind_returned _ _ _ _ _ (prepare_destination_single destination _ w Hp)).
    fold n.
    rewrite (bind_returned _ _ _ _ _
               (extract_file_system_single source partition (World n (trace w)) Hp Hr Hex)).
    cbn [fs trace]. fold ps.
    apply (bind_returned (write_artifact destination _)
                         (fun _ => link_collection destination collection) _ _ tt).
    unfold write_artifact. cbn [bag_ paths items lift].
    rewrite (bind_returned _ _ _ _ ps eq_refl).
    rewrite (bind_returned _ _ _ _ _ (load_items_all ps docs [] (World n _) H2 Ht)).
    rewrite app_nil_l. cbn [fs trace py_len run].
    rewrite (bind_returned _ _ _ _ num eq_refl).
    assert (Hpos : (0 <? num)%nat = true).
    { unfold num. destruct (feature_records docs); [congruence|reflexivity]. }
    rewrite Hpos. rewrite (bind_returned _ _ _ _ _ (print_run _ _)).
    cbn [py_list run]. rewrite (bind_returned _ _ _ _ (feature_records docs) eq_refl).
    unfold bind at 1. cbn [emit fs trace]. rewrite Hdf. cbn [lift].
    rewrite (bind_returned _ _ _ _ df eq_refl).
    rewrite (bind_returned _ _ _ _ _ (print_run _ _)).
    unfold write_file, bind, get_fs, set_fs, emit, print, emit. cbn [fs trace].
    rewrite Hres, Hnd, Hparent. cbn [fs trace]. unfold evs.
    now rewrite <- !app_assoc.
  - reflexivity.
  - cbn [fs]. now apply lookup_put_some.
  - reflexivity.
  - unfold evs. rewrite !tables_app, tables_map_read. reflexivity.
  - unfold evs. rewrite !writes_app, writes_map_read. reflexivity.
Qed.

(** X8: with a partition count of at most 1 and a source on the file
    system, the first collected file that is no record with a type ends
    the run: [KeyError] for an object without the key [type],
    [TypeError] for a JSON value that is no object, [JSONDecodeError]
    for a text that is no JSON; no table has been built and nothing
    written, though the destination has been cleared. *)
Theorem create_single_batch_bad_file
        (source destination collection : string) (partition : Z) (w : world)
        (good rest : list string) (bad : string) (docs : list json) (e : exn) :
  (partition <= 1)%Z ->
  is_remote source = false ->
  os_path_exists source (cleared destination (fs w)) = true ->
  collect_paths source (cleared destination (fs w)) = (good ++ bad :: rest)%list ->
  Forall2 (holds_record (cleared destination (fs w))) good docs ->
  Forall typed docs ->
  ((exists d, holds_record (cleared destination (fs w)) bad (JObj d) /\
              Dict.get "type" d = None /\ e = KeyError "type") \/
   (exists item, holds_record (cleared destination (fs w)) bad item /\
                 (forall d, item <> JObj d) /\ e = TypeError) \/
   (e = JSONDecodeError /\
    exists p text, os_resolve bad = Some p /\
                   FS.lookup p (cleared destination (fs w)) = Some (File text) /\
                   json_loads text = None)) ->
  exists evs,
    create_command source destination collection partition w
    = (Raised e, World (cleared destination (fs w)) (trace w ++ evs)) /\
    writes evs = [] /\ tables evs = [].
Proof.
  intros Hp Hr Hex Hpaths H2 Ht Hbad.
  set (n := cleared destination (fs w)) in *.
  assert (Hbad' : (exists item, holds_record n bad item /\ is_feature item = Raised e) \/
                  (e = JSONDecodeError /\
                   exists p text, os_resolve bad = Some p /\
                                  FS.lookup p n = Some (File text) /\
                                  json_loads text = None)).
  { destruct Hbad as [(d & Hh & Hd & ->)|[(item & Hh & Hi & ->)|Hj]]; [left|left|now right].
    - exists (JObj d). split; [exact Hh|]. unfold is_feature, py_getitem. now rewrite Hd.
    - exists item. split; [exact Hh|]. unfold is_feature, py_getitem.
      destruct item; try reflexivity. now destruct (Hi members). }
  exists ([Print "Reading from file system";
           Print ("Found " ++ Py.str_of_nat (List.length (good ++ bad :: rest))
                  ++ " potential STAC Items")]
          ++ map ReadFile good ++ [ReadFile bad])%list.
  split.
  - unfold create_command.
    rewrite (bind_returned _ _ _ _ _ (prepare_destination_single destination _ w Hp)).
    fold n.
    rewrite (bind_returned _ _ _ _ _
               (extract_file_system_single source partition (World n (trace w)) Hp Hr Hex)).
    cbn [fs trace]. rewrite Hpaths.
    apply bind_raised. unfold write_artifact. cbn [bag_ paths items lift].
    rewrite (bind_returned _ _ _ _ (good ++ bad :: rest)%list eq_refl).
    apply bind_raised.
    rewrite (load_items_stops good docs bad rest [] e (World n _) H2 Ht Hbad').
    cbn [fs trace]. now rewrite <- !app_assoc.
  - rewrite writes_app, tables_app.
    destruct (writes_read_events good bad) as [-> ->]. now split.
Qed.

(** X9: with a partition count of at most 1, a source that is a file
    rather than a directory gives no paths at all, and the run ends
    with the no-items exception, whatever the file holds. *)
Theorem create_from_a_file_aborts
        (source destination collection data : string) (partition : Z) (w : world)
        (p : list string) :
  (partition <= 1)%Z ->
  is_remote source = false ->
  os_resolve source = Some p ->
  FS.lookup p (cleared destination (fs w)) = Some (File data) ->
  create_command source destination collection partition w
  = (Raised (Exception "Aborting, no items available"),
     World (cleared destination (fs w))
           (trace w ++ [Print "Reading from file system";
                        Print "Found 0 potential STAC Items"])).
Proof.
  intros Hp Hr Hres Hl.
  set (n := cleared destination (fs w)) in *.
  assert (Hex : os_path_exists source n = true).
  { unfold os_path_exists, FS.exists_. now rewrite Hres, Hl. }
  assert (Hnone : collect_paths source n = []).
  { unfold collect_paths. now rewrite Hres, Hl. }
  unfold create_command.
  rewrite (bind_returned _ _ _ _ _ (prepare_destination_single destination _ w Hp)).
  fold n.
  rewrite (bind_returned _ _ _ _ _
             (extract_file_system_single source partition (World n (trace w)) Hp Hr Hex)).
  cbn [fs trace]. rewrite Hnone. reflexivity.
Qed.

(** X10: for a remote source the request is made after the destination
    has been prepared; a request that fails ends the run with
    [ConnectionError], a body that is no JSON with [JSONDecodeError],
    a JSON body that is no object with [AttributeError], in each case
    with the old artifact already gone and nothing written. *)
Theorem create_remote_failures
        (source destination collection : string) (partition : Z) (w w1 : world) :
  is_remote source = true ->
  prepare_destination destination partition w = (Returned tt, w1) ->
  let after := World (fs w1) (trace w1 ++ [Print "Requesting remote source";
                                           HttpGet source]) in
  (requests_get source = None ->
   create_command source destination collection partition w
   = (Raised ConnectionError, after)) /\
  (forall body,
      requests_get source = Some body -> json_loads body = None ->
      create_command source destination collection partition w
      = (Raised JSONDecodeError, after)) /\
  (forall body doc,
      requests_get source = Some body -> json_loads body = Some doc ->
      (forall d, doc <> JObj d) ->
      create_command source destination collection partition w
      = (Raised AttributeError, after)).
Proof.
  intros Hr Hprep after. unfold after.
  assert (Hstart : forall c : M locals,
             (print "Requesting remote source" ;; emit (HttpGet source) ;; c) w1
             = c (World (fs w1) (trace w1 ++ [Print "Requesting remote source";
                                              HttpGet source]))).
  { intros c. unfold bind, print, emit. cbn [fs trace]. now rewrite <- app_assoc. }
  split; [|split].
  - intros Hget. unfold create_command.
    rewrite (bind_returned _ _ _ _ _ Hprep). apply bind_raised.
    unfold extract. rewrite Hr. unfold from_remote. rewrite Hstart.
    apply bind_raised. now rewrite Hget.
  - intros body Hget Hload. unfold create_command.
    rewrite (bind_returned _ _ _ _ _ Hprep). apply bind_raised.
    unfold extract. rewrite Hr. unfold from_remote. rewrite Hstart.
    rewrite Hget. cbn [lift]. rewrite (bind_returned _ _ _ _ body eq_refl).
    apply bind_raised. now rewrite Hload.
  - intros body doc Hget Hload Hdoc. unfold create_command.
    rewrite (bind_returned _ _ _ _ _ Hprep). apply bind_raised.
    unfold extract. rewrite Hr. unfold from_remote. rewrite Hstart.
    rewrite Hget. cbn [lift]. rewrite (bind_returned _ _ _ _ body eq_refl).
    rewrite Hload. cbn [lift]. rewrite (bind_returned _ _ _ _ doc eq_refl).
    apply bind_raised. destruct doc; try reflexivity. now destruct (Hdoc members).
Qed.

End SingleBatch.

Lemma create_single_batch_writes_features_witness :
  exists evs w2,
    create_command (L := Examples.libs) "stac" "old.parquet" "collection.json" 1 Examples.w0
    = link_collection (L := Examples.libs) "old.parquet" "collection.json" w2 /\
    fs w2 = FS.put ["old.parquet"]
                   (Some (File (Sample.dumps (JArr [Examples.item "1" "Feature";
                                                    Examples.item "2" "Feature"]))))
                   (cleared "old.parquet" Examples.tree) /\
    FS.lookup ["old.parquet"] (fs w2)
    = Some (File (Sample.dumps (JArr [Examples.item "1" "Feature";
                                      Examples.item "2" "Feature"]))) /\
    trace w2 = (trace Examples.w0 ++ evs)%list /\
    tables evs = [[Examples.item "1" "Feature"; Examples.item "2" "Feature"]] /\
    writes evs = ["old.parquet"].
Proof.
  apply (create_single_batch_writes_features (L := Examples.libs)
           "stac" "old.parquet" "collection.json" 1 Examples.w0
           [Examples.item "1" "Feature"; Examples.item "2" "Feature"]
           [Examples.item "1" "Feature"; Examples.item "2" "Feature"]
           ["old.parquet"]).
  - lia.
  - reflexivity.
  - vm_compute. reflexivity.
  - replace (collect_paths "stac" (cleared "old.parquet" (fs Examples.w0)))
      with ["stac/item1.json"; "stac/2024/item2.json"] by (vm_compute; reflexivity).
    constructor; [|constructor; [|constructor]].
    + exists ["stac"; "item1.json"], (Sample.dumps (Examples.item "1" "Feature")).
      repeat split; vm_compute; reflexivity.
    + exists ["stac"; "2024"; "item2.json"], (Sample.dumps (Examples.item "2" "Feature")).
      repeat split; vm_compute; reflexivity.
  - repeat constructor; exists true; reflexivity.
  - discriminate.
  - reflexivity.
  - reflexivity.
  - discriminate.
  - vm_compute. reflexivity.
Defined.

Lemma create_single_batch_bad_file_witness :
  exists evs,
    create_command (L := Examples.libs) "mixed" "out.parquet" "" 1
                   (World Examples.mixed [])
    = (Raised (KeyError "type"),
       World (cleared "out.parquet" Examples.mixed) ([] ++ evs)) /\
    writes evs = [] /\ tables evs = [].
Proof.
  apply (create_single_batch_bad_file (L := Examples.libs)
           "mixed" "out.parquet" "" 1 (World Examples.mixed [])
           ["mixed/a.json"] ["mixed/c.json"] "mixed/b.json"
           [Examples.item "a" "Feature"] (KeyError "type")).
  - lia.
  - reflexivity.
  - vm_compute. reflexivity.
  - vm_compute. reflexivity.
  - constructor; [|constructor].
    exists ["mixed"; "a.json"], (Sample.dumps (Examples.item "a" "Feature")).
    repeat split; vm_compute; reflexivity.
  - repeat constructor; exists true; reflexivity.
  - left. exists [("id", JStr "b")]. split; [|split; reflexivity].
    exists ["mixed"; "b.json"], (Sample.dumps (JObj [("id", JStr "b")])).
    repeat split; vm_compute; reflexivity.
Defined.

Lemma create_from_a_file_aborts_witness :
  create_command (L := Examples.libs) "in.parquet" "out.parquet" "" 1 Examples.w0
  = (Raised (Exception "Aborting, no items available"),
     World (cleared "out.parquet" Examples.tree)
           [Print "Reading from file system"; Print "Found 0 potential STAC Items"]).
Proof.
  apply (create_from_a_file_aborts (L := Examples.libs)
           "in.parquet" "out.parquet" ""
           (Sample.dumps (JArr [Examples.row "1"; Examples.row "2"]))
           1 Examples.w0 ["in.parquet"]).
  - lia.
  - reflexivity.
  - reflexivity.
  - vm_compute. reflexivity.
Defined.

Lemma create_remote_failures_witness :
  create_command (L := Examples.libs) "https://example.com/down" "old.parquet" "" 1
                 Examples.w0
  = (Raised ConnectionError,
     World (cleared "old.parquet" Examples.tree)
           [Print "Requesting remote source"; HttpGet "https://example.com/down"]).
Proof.
  apply (proj1 (create_remote_failures (L := Examples.libs)
                  "https://example.com/down" "old.parquet" "" 1 Examples.w0
                  (World (cleared "old.parquet" Examples.tree) [])
                  eq_refl ltac:(vm_compute; reflexivity))).
  reflexivity.
Defined.

Lemma create_partitioned_never_aborts_witness :
  create_command (L := Examples.libs) "containers" "out" "" 2 Examples.w0
  <> (Raised (Exception "Aborting, no items available"),
      World (cleared "out" Examples.tree) []).
Proof.
  apply (create_partitioned_never_aborts (L := Examples.libs)
           "containers" "out" "" 2 Examples.w0). lia.
Defined.

Lemma create_remote_builds_all_features_witness :
  exists evs,
    trace (snd (create_command (L := Examples.libs)
                               "https://example.com/items" "out" "" 2 Examples.w0))
    = (trace Examples.w0 ++ evs)%list /\
    tables evs
    = @from_sequence Examples.libs json
        [Examples.item "1" "Feature"; Examples.item "2" "Collection"] 2.
Proof.
  apply (create_remote_builds_all_features (L := Examples.libs)
           "https://example.com/items" "out" ""
           (Sample.dumps (JObj [("type", JStr "FeatureCollection");
                                ("features", JArr [Examples.item "1" "Feature";
                                                   Examples.item "2" "Collection"])]))
           2
           [("type", JStr "FeatureCollection");
            ("features", JArr [Examples.item "1" "Feature";
                               Examples.item "2" "Collection"])]
           [Examples.item "1" "Feature"; Examples.item "2" "Collection"]
           Examples.w0).
  - reflexivity.
  - lia.
  - reflexivity.
  - vm_compute. reflexivity.
  - reflexivity.
  - vm_compute. reflexivity.
Defined.

(** ** What a run of create touches *)

Section Footprint.

Context {L : Libraries}.

Variable ok : event -> Prop.
Variables destination collection : string.
Hypothesis ok_print : forall line, ok (Print line).
Hypothesis ok_read : forall path, ok (ReadFile path).
Hypothesis ok_build : forall records, ok (BuildTable records).
Hypothesis ok_destination : ok (WriteFile destination).
Hypothesis ok_part : forall i, ok (WriteFile (part_path destination i)).
Hypothesis ok_collection : ok (WriteFile collection).

Lemma emits_write_artifact (l : locals) : emits ok (write_artifact destination l).
Proof.
  unfold write_artifact. destruct (bag_ l) as [b|].
  - apply emits_bind; [apply emits_emit, ok_print|intros _].
    apply emits_bind; [|intros _; apply emits_emit, ok_print].
    apply emits_dask_compute. unfold tasks, enumerate. generalize 0.
    assert (Hparts : Forall (emits ok) (bag_partitions b)).
    { destruct b as [parts|parts]; simpl; apply Forall_map, Forall_forall; intros part _.
      - apply emits_ret.
      - apply emits_read_features. exact ok_read. }
    induction Hparts as [|r dfs Hr _ IH]; intros i; simpl; constructor; [|apply IH].
    unfold to_parquet_task.
    apply emits_bind; [exact Hr|intros rs].
    apply emits_bind; [apply emits_emit, ok_build|intros _].
    apply emits_bind; [apply emits_lift|intros df].
    apply emits_write_file, ok_part.
  - apply emits_bind; [apply emits_lift|intros paths].
    apply emits_bind; [apply emits_load_items; exact ok_read|intros items].
    apply emits_bind; [apply emits_run|intros num].
    destruct (0 <? num)%nat; [|apply emits_raise].
    apply emits_bind; [apply emits_emit, ok_print|intros _].
    apply emits_bind; [apply emits_run|intros records].
    apply emits_bind; [apply emits_emit, ok_build|intros _].
    apply emits_bind; [apply emits_lift|intros df].
    apply emits_bind; [apply emits_emit, ok_print|intros _].
    apply emits_bind; [apply emits_write_file, ok_destination|intros _].
    apply emits_emit, ok_print.
Qed.

Lemma emits_link_collection_only : emits ok (link_collection destination collection).
Proof.
  unfold link_collection.
  destruct (0 <? String.length collection)%nat; [|apply emits_ret].
  apply emits_bind; [apply emits_read_text, ok_read|intros old].
  apply emits_bind; [apply emits_lift|intros doc].
  apply emits_bind; [apply emits_run|intros doc'].
  apply emits_bind; [apply emits_write_file, ok_collection|intros _].
  apply emits_emit, ok_print.
Qed.

(** After extraction nothing is requested over the network any more. *)
Lemma emits_after_extraction (l : locals) :
  emits ok (write_artifact destination l ;; link_collection destination collection).
Proof.
  apply emits_bind; [apply emits_write_artifact|intros _; apply emits_link_collection_only].
Qed.

End Footprint.

Lemma in_writes (evs : list event) (path : string) :
  In path (writes evs) <-> In (WriteFile path) evs.
Proof.
  induction evs as [|e evs IH]; [tauto|].
  destruct e; simpl; rewrite IH; split;
    try (intros [H|H]; [discriminate|tauto]); try tauto.
  - intros [->|H]; tauto.
  - intros [[= ->]|H]; tauto.
Qed.

Section Touches.

Context {L : Libraries}.

(** X13: however a run of [create] ends, the only files it has written
    are the destination itself, files [part.i.parquet] directly under
    the destination, and the collection document. *)
Theorem create_writes_within
        (source destination collection : string) (partition : Z)
        (w w' : world) (r : outcome unit) :
  create_command source destination collection partition w = (r, w') ->
  exists evs,
    trace w' = (trace w ++ evs)%list /\
    forall path,
      In path (writes evs) ->
      path = destination \/ path = collection \/
      exists i, path = destination ++ "/part." ++ Py.str_of_nat i ++ ".parquet".
Proof.
  intros H.
  assert (He : emits (writes_within destination collection)
                     (create_command source destination collection partition)).
  { unfold create_command.
    apply emits_bind; [apply emits_prepare_destination; intros; exact I|intros _].
    apply emits_bind; [apply emits_extract; intros; exact I|intros l].
    apply emits_after_extraction; try (intros; exact I).
    - now left.
    - intros i. right. right. now exists i.
    - right. now left. }
  destruct (He _ _ _ H) as (evs & T & F). exists evs. split; [exact T|].
  intros path Hin. apply in_writes in Hin.
  exact (proj1 (Forall_forall _ _) F _ Hin).
Qed.

(** X14: however a run of [create] ends, every request it has made
    over the network was for the source, and a run on a source that is
    not remote has made none. *)
Theorem create_requests_the_source_only
        (source destination collection : string) (partition : Z)
        (w w' : world) (r : outcome unit) :
  create_command source destination collection partition w = (r, w') ->
  exists evs,
    trace w' = (trace w ++ evs)%list /\
    (forall url, In (HttpGet url) evs -> url = source /\ is_remote source = true).
Proof.
  intros H.
  set (ok := fun e => match e with
                      | HttpGet url => url = source /\ is_remote source = true
                      | _ => True
                      end).
  assert (He : emits ok (create_command source destination collection partition)).
  { unfold create_command.
    apply emits_bind; [apply emits_prepare_destination; intros; exact I|intros _].
    apply emits_bind; [|intros l; apply emits_after_extraction; intros; exact I].
    unfold extract. destruct (is_remote source) eqn:Hr.
    - unfold from_remote.
      apply emits_bind; [apply emits_emit; exact I|intros _].
      apply emits_bind; [apply emits_emit; now split|intros _].
      apply emits_bind; [apply emits_lift|intros body].
      apply emits_bind; [apply emits_lift|intros doc].
      apply emits_bind; [apply emits_run|intros features].
      destruct (partition >? 1)%Z; [|apply emits_ret].
      apply emits_bind; [apply emits_run|intros seq; apply emits_ret].
    - apply emits_bind; [apply emits_get_fs|intros n].
      destruct (os_path_exists source n); [|apply emits_ret].
      apply emits_from_file_system. intros; exact I. }
  destruct (He _ _ _ H) as (evs & T & F). exists evs. split; [exact T|].
  intros url Hin. exact (proj1 (Forall_forall _ _) F _ Hin).
Qed.

End Touches.

Lemma create_writes_within_witness :
  exists evs,
    trace (snd (create_command (L := Examples.libs) "stac" "out" "collection.json" 2
                               Examples.w0))
    = (trace Examples.w0 ++ evs)%list /\
    forall path,
      In path (writes evs) ->
      path = "out" \/ path = "collection.json" \/
      exists i, path = "out" ++ "/part." ++ Py.str_of_nat i ++ ".parquet".
Proof.
  apply (create_writes_within (L := Examples.libs)
           "stac" "out" "collection.json" 2 Examples.w0 _
           (fst (create_command (L := Examples.libs) "stac" "out" "collection.json" 2
                                Examples.w0))).
  vm_compute. reflexivity.
Defined.

Lemma create_requests_the_source_only_witness :
  exists evs,
    trace (snd (create_command (L := Examples.libs)
                               "https://example.com/items" "out" "" 2 Examples.w0))
    = (trace Examples.w0 ++ evs)%list /\
    (forall url, In (HttpGet url) evs ->
                 url = "https://example.com/items" /\
                 is_remote "https://example.com/items" = true).
Proof.
  apply (create_requests_the_source_only (L := Examples.libs)
           "https://example.com/items" "out" "" 2 Examples.w0 _
           (fst (create_command (L := Examples.libs)
                                "https://example.com/items" "out" "" 2 Examples.w0))).
  vm_compute. reflexivity.
Defined.

(** ** A destination at or above the source *)

Section Overlap.

Context {L : Libraries}.

(** X15: with a partition count of at most 1, when the destination path
    is the source path or a directory above it, clearing the destination
    removes the source before it is read: nothing is left at the source
    path, and the run ends with [UnboundLocalError] on [paths] without
    having read, built or written anything. *)
Theorem create_onto_its_source
        (source destination collection : string) (partition : Z) (w : world)
        (below : list string) :
  (partition <= 1)%Z ->
  is_remote source = false ->
  FS.components destination <> [] ->
  FS.components source = (FS.components destination ++ below)%list ->
  FS.lookup (FS.components source) (cleared destination (fs w)) = None /\
  create_command source destination collection partition w
  = (Raised (UnboundLocalError "paths"), World (cleared destination (fs w)) (trace w)).
Proof.
  intros Hp Hr Hne Hsrc.
  assert (Hgone : FS.lookup (FS.components source) (cleared destination (fs w)) = None).
  { rewrite Hsrc. apply lookup_app_none. now apply cleared_lookup_none. }
  split; [exact Hgone|].
  unfold create_command.
  rewrite (bind_returned _ _ _ _ _ (prepare_destination_single destination _ w Hp)).
  unfold extract. rewrite Hr. unfold bind at 2. cbn [get_fs fs].
  assert (Hex : os_path_exists source (cleared destination (fs w)) = false).
  { unfold os_path_exists, os_resolve, FS.exists_.
    destruct (String.eqb source ""); [reflexivity|]. now rewrite Hgone. }
  unfold bind, get_fs. cbn [fs]. rewrite Hex. reflexivity.
Qed.

End Overlap.

Lemma create_onto_its_source_witness :
  FS.lookup ["stac"; "2024"] (cleared "stac" Examples.tree) = None /\
  create_command (L := Examples.libs) "stac/2024" "stac" "" 1 Examples.w0
  = (Raised (UnboundLocalError "paths"), World (cleared "stac" Examples.tree) []).
Proof.
  apply (create_onto_its_source (L := Examples.libs)
           "stac/2024" "stac" "" 1 Examples.w0 ["2024"]).
  - lia.
  - reflexivity.
  - discriminate.
  - reflexivity.
Defined.
